(** * A shallow embedding of the warehouse support bot (app.py)

    The development follows the layout of the program: text helpers of the
    Python runtime, the safety gate, the table heuristic, the mail delivery
    and escalation workflow, and finally the Flask routes, which form the
    conversation state machine.

    Text.  A Python [str] is modelled by a Rocq [string] whose characters are
    read as the code points 0..255 (the Latin-1 range).  On that range the
    tables below ([isspace], [is_word], [lower_char], [upper_char]) are the
    ones of the CPython Unicode database.  Message literals of the program
    that contain characters outside that range are kept as the bytes of the
    source file; they are only ever appended to the transcript. *)

From stdpp Require Import gmap strings list.
From Stdlib Require Import NArith ZArith Ascii String Bool Lia.

Local Open Scope string_scope.

(** ** Python text primitives *)

Module PyStr.

Definition ord (c : ascii) : N := N_of_ascii c.

Definition between (lo hi n : N) : bool := (lo <=? n)%N && (n <=? hi)%N.

(** [str.isspace] on one character, as used by [str.strip()]. *)
Definition isspace (c : ascii) : bool :=
  let n := ord c in
  between 9 13 n || between 28 32 n || (n =? 133)%N || (n =? 160)%N.

(** The class [\w] of the [re] module for [str] patterns. *)
Definition is_word (c : ascii) : bool :=
  let n := ord c in
  between 48 57 n || between 65 90 n || (n =? 95)%N || between 97 122 n
  || (n =? 170)%N || between 178 179 n || (n =? 181)%N || between 185 186 n
  || between 188 190 n || between 192 214 n || between 216 246 n
  || between 248 255 n.

(** [str.lower] on one character. *)
Definition lower_char (c : ascii) : ascii :=
  let n := ord c in
  if between 65 90 n || between 192 214 n || between 216 222 n
  then ascii_of_N (n + 32) else c.

(** [str.upper] on one character: the result is a sequence of code points,
    since it may be longer than one character and may leave Latin-1. *)
Definition upper_char (c : ascii) : list N :=
  let n := ord c in
  if between 97 122 n || between 224 246 n || between 248 254 n
  then [(n - 32)%N]
  else if (n =? 181)%N then [924%N]
  else if (n =? 223)%N then [83%N; 83%N]
  else if (n =? 255)%N then [376%N]
  else [n].

Fixpoint lower (s : string) : string :=
  match s with
  | EmptyString => EmptyString
  | String c s' => String (lower_char c) (lower s')
  end.

Fixpoint codepoints (s : string) : list N :=
  match s with
  | EmptyString => []
  | String c s' => ord c :: codepoints s'
  end.

Fixpoint upper (s : string) : list N :=
  match s with
  | EmptyString => []
  | String c s' => upper_char c ++ upper s'
  end.

(** Removal of the leading and of the trailing characters in a class. *)
Fixpoint lstrip_by (p : ascii -> bool) (s : string) : string :=
  match s with
  | EmptyString => EmptyString
  | String c s' => if p c then lstrip_by p s' else s
  end.

Fixpoint rstrip_by (p : ascii -> bool) (s : string) : string :=
  match s with
  | EmptyString => EmptyString
  | String c s' =>
      match rstrip_by p s' with
      | EmptyString => if p c then EmptyString else String c EmptyString
      | r => String c r
      end
  end.

(** [s.strip()]. *)
Definition strip (s : string) : string := rstrip_by isspace (lstrip_by isspace s).

(** [s.strip(chars)]. *)
Definition strip_chars (chars s : string) : string :=
  let p c := existsb (Ascii.eqb c) (list_ascii_of_string chars) in
  rstrip_by p (lstrip_by p s).

(** [s.split(sep)] for a one-character separator. *)
Fixpoint split (sep : ascii) (s : string) : list string :=
  match s with
  | EmptyString => [EmptyString]
  | String c s' =>
      match split sep s' with
      | h :: t => if Ascii.eqb c sep then EmptyString :: h :: t
                  else String c h :: t
      | [] => [String c EmptyString]
      end
  end.

(** [sep.join(l)]. *)
Fixpoint join (sep : string) (l : list string) : string :=
  match l with
  | [] => EmptyString
  | [x] => x
  | x :: l' => x +:+ sep +:+ join sep l'
  end.

Definition digit_val (c : ascii) : option Z :=
  let n := ord c in
  if between 48 57 n then Some (Z.of_N (n - 48)) else None.

Fixpoint parse_digits (acc : Z) (s : string) : option Z :=
  match s with
  | EmptyString => Some acc
  | String c s' =>
      match digit_val c with
      | Some d => parse_digits (10 * acc + d) s'
      | None => None
      end
  end.

(** [int(s)] for a decimal literal with optional sign and surrounding
    whitespace; [None] stands for [ValueError].  Digit-group underscores and
    non-ASCII digits are not recognised by this model. *)
Definition py_int (s : string) : option Z :=
  match strip s with
  | EmptyString => None
  | String c r =>
      if Ascii.eqb c "-" then
        match r with
        | EmptyString => None
        | _ => option_map Z.opp (parse_digits 0 r)
        end
      else if Ascii.eqb c "+" then
        match r with
        | EmptyString => None
        | _ => parse_digits 0 r
        end
      else parse_digits 0 (String c r)
  end.

Definition nl : string := String (ascii_of_N 10) EmptyString.

(** The double quote character. *)
Definition dq : string := String (ascii_of_N 34) EmptyString.

(** [t.startswith(p)] on sequences of code points. *)
Fixpoint cp_startswith (p t : list N) : bool :=
  match p, t with
  | [], _ => true
  | a :: p', b :: t' => (a =? b)%N && cp_startswith p' t'
  | _ :: _, [] => false
  end.

(** [s.startswith(p)] on strings. *)
Fixpoint startswith (p s : string) : bool :=
  match p, s with
  | EmptyString, _ => true
  | String a p', String b s' => Ascii.eqb a b && startswith p' s'
  | String _ _, EmptyString => false
  end.

(** [k in q]: substring test, scanning the start positions left to right. *)
Fixpoint contains (k q : string) : bool :=
  startswith k q ||
  match q with
  | EmptyString => false
  | String _ q' => contains k q'
  end.

(** [s[:n]]. *)
Fixpoint take (n : nat) (s : string) : string :=
  match n, s with
  | S n', String c s' => String c (take n' s')
  | _, _ => EmptyString
  end.

(** [s[n:]]. *)
Fixpoint drop (n : nat) (s : string) : string :=
  match n, s with
  | S n', String _ s' => drop n' s'
  | _, _ => s
  end.

Definition head (s : string) : option ascii :=
  match s with
  | EmptyString => None
  | String c _ => Some c
  end.


(** [x in {...}] for a set literal of strings. *)
Definition in_set (x : string) (l : list string) : bool :=
  existsb (String.eqb x) l.

(** Truthiness of an optional string ([None] and [""] are falsy). *)
Definition truthy (o : option string) : bool :=
  match o with
  | Some (String _ _) => true
  | _ => false
  end.

End PyStr.

(** ** 4) Safety helpers *)

Module Safety.
Import PyStr.

(** The alternation of [WRITE_PATTERN], in the order of the source. *)
Definition WRITE_VERBS : list string :=
  ["INSERT"; "UPDATE"; "DELETE"; "DROP"; "TRUNCATE"; "ALTER"; "CREATE";
   "REPLACE"; "GRANT"; "REVOKE"].

Definition word_at (c : option ascii) : bool :=
  match c with
  | Some c => is_word c
  | None => false
  end.

(** [\b]: the characters on the two sides of the position ([None] at the ends
    of the string) differ in being word characters. *)
Definition at_boundary (prev next : option ascii) : bool :=
  xorb (word_at prev) (word_at next).

(** A literal under [re.IGNORECASE]: consumes the text character by character,
    comparing lower-cased characters; returns the last consumed character and
    the rest of the text. *)
Fixpoint match_literal (lit : string) (prev : option ascii) (s : string)
  : option (option ascii * string) :=
  match lit with
  | EmptyString => Some (prev, s)
  | String p lit' =>
      match s with
      | EmptyString => None
      | String c s' =>
          if Ascii.eqb (lower_char c) (lower_char p)
          then match_literal lit' (Some c) s'
          else None
      end
  end.

(** [\b(V1|...|Vn)\b] tried at one position. *)
Definition match_here (prev : option ascii) (s : string) : bool :=
  at_boundary prev (head s) &&
  existsb (fun v =>
             match match_literal v prev s with
             | Some (last, rest) => at_boundary last (head rest)
             | None => false
             end) WRITE_VERBS.

(** [WRITE_PATTERN.search]: the first position where the pattern matches. *)
Fixpoint search_from (prev : option ascii) (s : string) : bool :=
  match_here prev s ||
  match s with
  | EmptyString => false
  | String c s' => search_from (Some c) s'
  end.

Definition WRITE_PATTERN_search (s : string) : bool := search_from None s.

Definition SELECT : list N := codepoints "SELECT".

Definition is_safe_sql (sql : string) : bool :=
  if WRITE_PATTERN_search sql then false
  else cp_startswith SELECT (upper (strip sql)).



End Safety.

(** ** 5) Table detection *)

Module Tables.
Import PyStr.

(** The keyword sets.  They are Python sets; [any(k in q for k in S)] does not
    depend on the iteration order, so each is listed as in the source. *)
Definition ORDER_KEYWORDS : list string :=
  ["order"; "orders"; "order_id"; "order header"; "status"; "consignment";
   "order_type"; "creation_date"; "ship_by_date"; "deliver_by_date"].

Definition SKU_KEYWORDS : list string :=
  ["sku"; "sku_id"; "stroke"; "description"; "tdept"; "color"; "item";
   "product"].

Definition LOCATION_KEYWORDS : list string :=
  ["location"; "warehouse"; "zone"; "site"; "pick_sequence"; "modes";
   "site_code"].

Definition INVENTORY_KEYWORDS : list string :=
  ["inventory"; "stock"; "qty_on_hand"; "qty_allocated"; "availability";
   "balance"].

(** [any(k in q for k in kws)]. *)
Definition any_in (kws : list string) (q : string) : bool :=
  existsb (fun k => contains k q) kws.

Definition detect_table (question : string) : string :=
  let q := lower question in
  if any_in ORDER_KEYWORDS q then
    if any_in SKU_KEYWORDS q then "order_header JOIN order_line"
    else "order_header"
  else if any_in SKU_KEYWORDS q then
    if any_in INVENTORY_KEYWORDS q then "sku JOIN inventory"
    else "sku"
  else if any_in LOCATION_KEYWORDS q then
    if any_in INVENTORY_KEYWORDS q then "location JOIN inventory"
    else "location"
  else if any_in INVENTORY_KEYWORDS q then "inventory"
  else "order_header".

(** The reading of the specification: some keyword of the set occurs in the
    lower-cased question. *)
Definition mentions (kws : list string) (question : string) : Prop :=
  exists k pre suf, In k kws /\ lower question = pre +:+ k +:+ suf.

End Tables.

(** ** Runtime: exceptions, results, the world and its monad *)

Module Runtime.
Import PyStr.

(** The exception classes that the program names or that its collaborators
    raise, with the base class of each in the Python standard library. *)
Inductive ExcClass :=
  | Exception | ValueError | OSError | socket_timeout | SMTPException
  | SMTPConnectError | SMTPServerDisconnected | SMTPAuthenticationError.

Definition base (c : ExcClass) : option ExcClass :=
  match c with
  | Exception => None
  | ValueError | OSError => Some Exception
  | socket_timeout | SMTPException => Some OSError
  | SMTPConnectError | SMTPServerDisconnected | SMTPAuthenticationError =>
      Some SMTPException
  end.

Definition ExcClass_eqb (a b : ExcClass) : bool :=
  match a, b with
  | Exception, Exception | ValueError, ValueError | OSError, OSError
  | socket_timeout, socket_timeout | SMTPException, SMTPException
  | SMTPConnectError, SMTPConnectError
  | SMTPServerDisconnected, SMTPServerDisconnected
  | SMTPAuthenticationError, SMTPAuthenticationError => true
  | _, _ => false
  end.

(** [issubclass c d]; the hierarchy above has depth three. *)
Definition issubclass (c d : ExcClass) : bool :=
  let up o := match o with Some x => base x | None => None end in
  let hit o := match o with Some x => ExcClass_eqb x d | None => false end in
  hit (Some c) || hit (base c) || hit (up (base c)) || hit (up (up (base c))).

(** A raised exception: its class and [str(e)]. *)
Record Exn := mkExn { exn_class : ExcClass; exn_str : string }.

(** [except (c1, ..., cn)]. *)
Definition isinstance (e : Exn) (classes : list ExcClass) : bool :=
  existsb (issubclass (exn_class e)) classes.

Inductive Result (A : Type) :=
  | Ok (a : A)
  | Raise (e : Exn).
Arguments Ok {A} a.
Arguments Raise {A} e.

Inductive Role := user | assistant.
Record Message := mkMessage { role : Role; content : string }.

Inductive State := collect | confirm.

(** The per-browser session: a dictionary with four possible keys. *)
Record Session := mkSession {
  chat : option (list Message);
  state : option State;
  pending_sql : option string;
  latest_files : option (gmap string string)
}.

Record Issue := mkIssue {
  question : string;
  sql : option string;
  table : string;
  details : string;
  status : string
}.

(** The result of [pd.read_sql]: ordered columns and rows of cells. *)
Record DataFrame := mkDataFrame {
  columns : list string;
  rows : list (list string)
}.

(** [df.empty]: some axis has length zero. *)
Definition df_empty (df : DataFrame) : bool :=
  match columns df, rows df with
  | _ :: _, _ :: _ => false
  | _, _ => true
  end.

(** [df.head(n)]. *)
Definition df_head (n : nat) (df : DataFrame) : DataFrame :=
  mkDataFrame (columns df) (firstn n (rows df)).

Record EmailMessage := mkEmail {
  Subject : string;
  From_ : option string;
  To : string;
  body_text : string
}.

(** Effects on the collaborators, in the order in which they happen. *)
Inductive Event :=
  | EvLLM (user_prompt : string)
  | EvSQL (sql : option string)
  | EvIssueStored (issue_id : string)
  | EvSMTP (use_ssl : bool) (host : string) (port : Z)
  | EvWrite (path : string)
  | EvFlash (message category : string).

Record World := mkWorld {
  session : Session;
  ISSUE_STORE : gmap string Issue;
  events : list Event;
  entropy_used : nat
}.

(** The environment variables read by the program. *)
Record Config := mkConfig {
  SMTP_HOST : option string;
  SMTP_USER : option string;
  SMTP_PASS : option string;
  UPSTREAM_EMAIL : option string;
  env_SMTP_DEBUG : option string;
  env_SMTP_USE_SSL : option string;
  env_SMTP_PORT : option string;
  OUT_DIR : string
}.

(** The collaborators of one request. *)
Record Env := mkEnv {
  config : Config;
  (** [(prompt | llm).invoke(...).content] for a system and a user prompt *)
  llm_invoke : string -> string -> Result string;
  (** [pd.read_sql(sql, engine)] *)
  read_sql : option string -> Result DataFrame;
  (** the k-th draw of 16 random bytes, as a number *)
  urandom : nat -> N;
  (** one SMTP conversation: connect, (starttls,) login, send_message *)
  smtp_session : bool -> string -> Z -> bool -> EmailMessage -> Result unit;
  (** [df.to_csv(path)] and [df.to_excel(path)] *)
  to_csv : string -> DataFrame -> Result unit;
  to_excel : string -> DataFrame -> Result unit;
  (** [df.to_html(classes=..., index=False)] *)
  to_html : DataFrame -> Result string
}.

Definition M (A : Type) : Type := World -> Result A * World.

Definition ret {A} (a : A) : M A := fun w => (Ok a, w).

Definition bind {A B} (m : M A) (k : A -> M B) : M B :=
  fun w =>
    match m w with
    | (Ok a, w') => k a w'
    | (Raise e, w') => (Raise e, w')
    end.

Definition raise {A} (e : Exn) : M A := fun w => (Raise e, w).

(** The outcome of a collaborator becomes a value or a raised exception. *)
Definition lift {A} (r : Result A) : M A := fun w => (r, w).

(** [try: m except Exception as e: h e].  Every class of [ExcClass] derives
    from [Exception]; the handler runs in the world the body left behind. *)
Definition try_except {A} (m : M A) (h : Exn -> M A) : M A :=
  fun w =>
    match m w with
    | (Ok a, w') => (Ok a, w')
    | (Raise e, w') => h e w'
    end.

(** The world after one more effect on a collaborator. *)
Definition logged (ev : Event) (w : World) : World :=
  mkWorld (session w) (ISSUE_STORE w) (events w ++ [ev])%list (entropy_used w).

(** The world after an update of the session dictionary. *)
Definition on_session (f : Session -> Session) (w : World) : World :=
  mkWorld (f (session w)) (ISSUE_STORE w) (events w) (entropy_used w).

(** The world after [ISSUE_STORE[issue_id] = i]. *)
Definition stored (issue_id : string) (i : Issue) (w : World) : World :=
  mkWorld (session w) (<[issue_id := i]> (ISSUE_STORE w)) (events w)
          (entropy_used w).

Definition emit (ev : Event) : M unit := fun w => (Ok tt, logged ev w).

Definition get_session : M Session := fun w => (Ok (session w), w).

Definition modify_session (f : Session -> Session) : M unit :=
  fun w => (Ok tt, on_session f w).

Definition store_issue (issue_id : string) (i : Issue) : M unit :=
  fun w => (Ok tt, stored issue_id i w).

End Runtime.

Notation "'let!' x ':=' m 'in' k" := (Runtime.bind m (fun x => k))
  (at level 10, x name, m at level 200, k at level 200).
Notation "m ';;' k" := (Runtime.bind m (fun _ => k))
  (at level 100, k at level 200, right associativity).

(** ** UUIDs *)

Module Uuid.
Import PyStr Runtime.

Definition hex_digit (n : N) : ascii :=
  match String.get (N.to_nat n) "0123456789abcdef" with
  | Some c => c
  | None => "0"%char
  end.

(** ['%0<digits>x' % n] for [n] below [16 ^ digits]. *)
Fixpoint hex_fixed (digits : nat) (n : N) : string :=
  match digits with
  | O => EmptyString
  | S d =>
      String (hex_digit (N.land (N.shiftr n (4 * N.of_nat d)) 15))
             (hex_fixed d n)
  end.

(** [UUID(bytes=os.urandom(16), version=4).int]: the variant and version bits
    are forced, the other 122 bits are the random ones. *)
Definition uuid4_int (r : N) : N :=
  let i := (r mod 2 ^ 128)%N in
  let i := N.ldiff i (N.shiftl 0xc000 48) in
  let i := N.lor i (N.shiftl 0x8000 48) in
  let i := N.ldiff i (N.shiftl 0xf000 64) in
  N.lor i (N.shiftl 4 76).

Definition uuid4_hex_of (r : N) : string := hex_fixed 32 (uuid4_int r).

(** [uuid.uuid4().hex]: consumes one draw of random bytes. *)
Definition uuid4_hex (env : Env) : M string :=
  fun w =>
    (Ok (uuid4_hex_of (urandom env (entropy_used w))),
     mkWorld (session w) (ISSUE_STORE w) (events w) (S (entropy_used w))).

End Uuid.

(** ** 10-12) Mail delivery and escalation *)

Module Mail.
Import PyStr Runtime Uuid.

Section WithEnv.
Variable env : Env.

Definition TRUE_WORDS : list string := ["1"; "true"; "yes"].

Definition or_default (o : option string) (d : string) : string :=
  match o with
  | Some s => s
  | None => d
  end.

(** [x or d] on an optional string. *)
Definition or_else (o : option string) (d : string) : string :=
  if truthy o then or_default o d else d.

(** The classes of the [except] clause of the attempt loop. *)
Definition MAIL_CAUGHT : list ExcClass :=
  [socket_timeout; SMTPConnectError; SMTPServerDisconnected; OSError].

(** The body of the [for] loop over [attempts]: one SMTP conversation per
    attempt; an exception of a caught class moves on to the next attempt, any
    other exception leaves the function.  Console output is not modelled. *)
Fixpoint try_attempts (debug : bool) (msg : EmailMessage)
    (attempts : list (bool * string * Z)) : M bool :=
  match attempts with
  | [] => ret false
  | (use_ssl, h, p) :: rest =>
      emit (EvSMTP use_ssl h p) ;;
      try_except
        (lift (smtp_session env use_ssl h p debug msg) ;; ret true)
        (fun e =>
           if isinstance e MAIL_CAUGHT then try_attempts debug msg rest
           else raise e)
  end.

Definition send_mail_to_upstream (subject body : string) (to : option string)
  : M bool :=
  let cfg := config env in
  if negb (truthy (SMTP_USER cfg) && truthy (SMTP_PASS cfg)
           && truthy (UPSTREAM_EMAIL cfg))
  then ret false
  else
    let host := or_else (SMTP_HOST cfg) "smtp.gmail.com" in
    let debug := in_set (strip (or_default (env_SMTP_DEBUG cfg) "0")) TRUE_WORDS in
    let recipients :=
      if truthy to then split "," (or_default to "")
      else filter (fun e => bool_decide (e <> ""))
             (map strip (split "," (or_default (UPSTREAM_EMAIL cfg) ""))) in
    let msg := mkEmail subject (SMTP_USER cfg) (join ", " recipients) body in
    let env_use_ssl := env_SMTP_USE_SSL cfg in
    let env_port := env_SMTP_PORT cfg in
    let! attempts :=
      (if truthy env_port || bool_decide (env_use_ssl <> None) then
         let use_ssl := in_set (lower (or_else env_use_ssl "")) TRUE_WORDS in
         let! port :=
           (if truthy env_port then
              match py_int (or_default env_port "") with
              | Some n => ret n
              | None => raise (mkExn ValueError
                                 "invalid literal for int() with base 10")
              end
            else ret (if use_ssl then 465%Z else 587%Z)) in
         ret [(use_ssl, host, port)]
       else ret [(true, host, 465%Z); (false, host, 587%Z)]) in
    try_attempts debug msg attempts.

(** [f"{sql}"] for a value that is a string or [None]. *)
Definition format_opt (o : option string) : string := or_default o "None".

Definition issue_subject (table issue_id : string) : string :=
  "[AI Chatbot] Missing Data Escalation ‚Äî " +:+ table +:+ " (" +:+ issue_id +:+ ")".

Definition issue_body (convo_token user_question : string)
    (sql : option string) (details : string) : string :=
  "Conversation token: " +:+ convo_token +:+ nl +:+
  "User Question: " +:+ user_question +:+ nl +:+
  "SQL: " +:+ format_opt sql +:+ nl +:+
  "Details: " +:+ details.

Definition create_and_send_issue (user_question : string)
    (sql : option string) (table details : string)
  : M (string * string * bool) :=
  let! h1 := uuid4_hex env in
  let issue_id := take 8 h1 in
  let! h2 := uuid4_hex env in
  let convo_token := take 12 h2 in
  store_issue issue_id (mkIssue user_question sql table details "open") ;;
  let subject := issue_subject table issue_id in
  let body := issue_body convo_token user_question sql details in
  let! ok := send_mail_to_upstream subject body None in
  ret (issue_id, convo_token, ok).

End WithEnv.
End Mail.

(** ** 2), 6)-9), 13), 14) The routes *)

Module App.
Import PyStr Safety Tables Runtime Uuid Mail.

Inductive Method := GET | POST.

(** The request: its method and the two form fields the program reads. *)
Record Request := mkRequest {
  method : Method;
  form_action : option string;
  form_message : option string
}.

Inductive Response :=
  | Redirect (endpoint : string)
  | RenderTemplate (template : string) (chat_messages : list Message)
                   (state : State)
  | SendFile (path : string).

Definition GREETING : string :=
  "üëã Hi ‚Äî I'm your AI Support Bot. Ask me anything about orders, SKUs, locations, or inventory.".

Definition CLOSED_MESSAGE : string :=
  "‚úÖ Chat session closed. You can start a new request anytime.".

Definition UNSAFE_MESSAGE : string :=
  "‚ùå I couldn‚Äôt generate a safe SQL for that. Please rephrase.".

Definition ERROR_PREFIX : string := "‚ö†Ô∏è Error: ".

Definition CLOSE_PHRASES : list string :=
  ["close"; "end"; "stop"; "bye"; "exit"; "close chat"].

Definition AFFIRMATIVE : list string := ["yes"; "y"].

Definition build_sql_prompt : string :=
  "
You are an expert SQL generator for MySQL. Return ONLY a single SELECT query.
Analyze the user's question and use appropriate joins if required.

Available tables:
- order_header(order_id, status, consignment, order_type, customer_id, postcode,
               creation_date, ship_by_date, deliver_by_date, last_updated_by, last_updated_date)
- order_line(order_id, line_id, sku_id, qty_ordered, qty_tasked, allocate)
- sku(sku_id, stroke, description, tdept, color)
- location(location_id, location_type, pick_sequence, site_code, zone, modes)
- inventory(inventory_id, sku_id, location_id, qty_on_hand, qty_allocated)

Relationships:
- order_header.order_id = order_line.order_id
- order_line.sku_id = sku.sku_id
- inventory.sku_id = sku.sku_id
- inventory.location_id = location.location_id

Rules:
- Always generate safe SELECT statements only.
- If user asks about stock, inventory, SKU details, or locations ‚Üí join relevant tables.
- Always include LIMIT 1000 unless the user specifies otherwise.
- Use clear JOIN syntax and relevant WHERE filters inferred from question.
- Never generate DDL or DML (INSERT/UPDATE/DELETE).

Return ONLY the SQL query without explanation.
".

Section WithEnv.
Variable env : Env.

Definition run_sql_to_df (sql : option string) : M DataFrame :=
  emit (EvSQL sql) ;; lift (read_sql env sql).

(** The user part of the prompt template, with the question filled in. *)
Definition user_prompt_of (question : string) : string :=
  "User question: " +:+ question +:+ nl +:+ nl +:+ "Return ONLY the SQL query.".

Definition generate_sql_for_question (question : string) : M string :=
  let sys_prompt := build_sql_prompt in
  let user_prompt := user_prompt_of question in
  emit (EvLLM user_prompt) ;;
  let! resp_content := lift (llm_invoke env sys_prompt user_prompt) in
  let sql := strip resp_content in
  ret (if startswith "```" sql then
         let sql := strip_chars "`" sql in
         if startswith "sql" (lower sql) then strip (drop 3 sql) else sql
       else sql).

Definition save_df_to_files (df : DataFrame) : M (gmap string string) :=
  let! unique := uuid4_hex env in
  let csv_path := OUT_DIR (config env) +:+ "/results_" +:+ unique +:+ ".csv" in
  let xlsx_path := OUT_DIR (config env) +:+ "/results_" +:+ unique +:+ ".xlsx" in
  emit (EvWrite csv_path) ;;
  lift (to_csv env csv_path df) ;;
  emit (EvWrite xlsx_path) ;;
  lift (to_excel env xlsx_path df) ;;
  ret (<["csv" := csv_path]> (<["excel" := xlsx_path]> ∅)).

(** The session that [reset_chat] leaves: the greeting, state [collect], and
    the keys [pending_sql] and [latest_files] popped. *)
Definition reset_session (s : Session) : Session :=
  mkSession (Some [mkMessage assistant GREETING]) (Some collect) None None.

Definition reset_chat : M unit := modify_session reset_session.

(** The session after [append_message]. *)
Definition appended (r : Role) (c : string) (s : Session) : Session :=
  let msgs := default [] (chat s) in
  mkSession (Some (msgs ++ [mkMessage r c])%list) (state s) (pending_sql s)
            (latest_files s).

Definition append_message (r : Role) (c : string) : M unit :=
  modify_session (appended r c).

(** [session["state"] = st]. *)
Definition with_state (st : State) (s : Session) : Session :=
  mkSession (chat s) (Some st) (pending_sql s) (latest_files s).

Definition set_state (st : State) : M unit := modify_session (with_state st).

(** [session["pending_sql"] = q]. *)
Definition with_pending_sql (q : string) (s : Session) : Session :=
  mkSession (chat s) (state s) (Some q) (latest_files s).

Definition set_pending_sql (q : string) : M unit :=
  modify_session (with_pending_sql q).

(** [session["latest_files"] = files]. *)
Definition with_latest_files (files : gmap string string) (s : Session)
  : Session :=
  mkSession (chat s) (state s) (pending_sql s) (Some files).

Definition set_latest_files (files : gmap string string) : M unit :=
  modify_session (with_latest_files files).

Definition flash (message category : string) : M unit :=
  emit (EvFlash message category).

(** [url_for("download_file", filetype=t)]. *)
Definition url_for_download (t : string) : string := "/download/" +:+ t.

Definition DOWNLOAD_LINKS : string :=
  "<a href=" +:+ dq +:+ url_for_download "csv" +:+ dq +:+
  ">Download CSV</a> | <a href=" +:+ dq +:+ url_for_download "excel" +:+ dq +:+
  ">Download Excel</a>".

(** The body of the [try] block of [index]. *)
Definition process_turn (st : State) (user_text : string) : M Response :=
  match st with
  | collect =>
      let! sql := generate_sql_for_question user_text in
      if negb (is_safe_sql sql) then
        append_message assistant UNSAFE_MESSAGE ;;
        ret (Redirect "index")
      else
        set_pending_sql sql ;;
        append_message assistant
          "I found a query for that. Do you want me to run it? (Yes/No)" ;;
        set_state confirm ;;
        ret (Redirect "index")
  | confirm =>
      if in_set (lower user_text) AFFIRMATIVE then
        let! s := get_session in
        let sql := pending_sql s in
        let! df := run_sql_to_df sql in
        if df_empty df then
          let! r := create_and_send_issue env user_text sql
                      (detect_table user_text) "No rows returned" in
          let '(issue_id, token, ok) := r in
          (if ok : bool then
             append_message assistant
               ("No data found. Issue **" +:+ issue_id +:+
                "** escalated upstream.")
           else
             append_message assistant
               ("No data found, but failed to send email. Issue ID: " +:+
                issue_id)) ;;
          set_state collect ;;
          ret (Redirect "index")
        else
          let! files := save_df_to_files df in
          set_latest_files files ;;
          let! preview := lift (to_html env (df_head 20 df)) in
          append_message assistant ("Here are the results:<br>" +:+ preview) ;;
          append_message assistant DOWNLOAD_LINKS ;;
          append_message assistant
            "Would you like to make another request or type 'close chat' to end?" ;;
          set_state collect ;;
          ret (Redirect "index")
      else
        append_message assistant
          "Okay, not running that query. Ask me another question." ;;
        set_state collect ;;
        ret (Redirect "index")
  end.

Definition index (req : Request) : M Response :=
  let! s0 := get_session in
  (if bool_decide (chat s0 = None) then reset_chat else ret tt) ;;
  let! s := get_session in
  let chat_messages := default [] (chat s) in
  let st := default collect (state s) in
  match method req with
  | POST =>
      let action := default "message" (form_action req) in
      let user_text := strip (default "" (form_message req)) in
      if in_set (lower user_text) CLOSE_PHRASES then
        append_message assistant CLOSED_MESSAGE ;;
        reset_chat ;;
        ret (Redirect "index")
      else if String.eqb action "reset" then
        reset_chat ;;
        ret (Redirect "index")
      else if String.eqb user_text "" then
        flash "Please enter a message." "warning" ;;
        ret (Redirect "index")
      else
        append_message user user_text ;;
        try_except (process_turn st user_text)
          (fun e =>
             append_message assistant (ERROR_PREFIX +:+ exn_str e) ;;
             set_state collect ;;
             ret (Redirect "index"))
  | GET => ret (RenderTemplate "index.html" chat_messages st)
  end.

Definition download_file (filetype : string) : M Response :=
  let! s := get_session in
  let unavailable :=
    flash "File not available." "warning" ;; ret (Redirect "index") in
  match latest_files s with
  | None => unavailable
  | Some files =>
      if bool_decide (files = ∅) then unavailable
      else match files !! filetype with
           | None => unavailable
           | Some path => ret (SendFile path)
           end
  end.

End WithEnv.

(** A request to one of the two routes. *)
Inductive Call :=
  | CallIndex (req : Request)
  | CallDownload (filetype : string).

Definition handle (env : Env) (c : Call) : M Response :=
  match c with
  | CallIndex req => index env req
  | CallDownload filetype => download_file filetype
  end.

(** A browser session starts with an empty session dictionary, in a process
    whose issue mapping holds whatever earlier sessions left there. *)
Definition fresh_world (store : gmap string Issue) : World :=
  mkWorld (mkSession None None None None) store [] 0.

(** The worlds one session can be in: any number of requests, each served
    with the collaborators behaving in any way. *)
Inductive reachable : World -> Prop :=
  | reach_fresh store : reachable (fresh_world store)
  | reach_step env c w : reachable w -> reachable (snd (handle env c w)).

End App.

(** ** Vocabulary of the statements *)

Module Vocabulary.
Import PyStr Safety Tables Runtime Uuid Mail App.





(** The labels the heuristic can return. *)
Definition TABLE_LABELS : list string :=
  ["order_header JOIN order_line"; "order_header"; "sku JOIN inventory"; "sku";
   "location JOIN inventory"; "location"; "inventory"].

(** The three values without which no mail is attempted are configured. *)
Definition credentials_present (cfg : Config) : Prop :=
  truthy (SMTP_USER cfg) = true /\ truthy (SMTP_PASS cfg) = true /\
  truthy (UPSTREAM_EMAIL cfg) = true.

(** Neither a port nor the SSL flag is given in the environment. *)
Definition unpinned (cfg : Config) : Prop :=
  truthy (env_SMTP_PORT cfg) = false /\ env_SMTP_USE_SSL cfg = None.



(** Mail delivery reports failure, whatever the message. *)
Definition delivery_fails (env : Env) : Prop :=
  forall subject body w,
    fst (send_mail_to_upstream env subject body None w) = Ok false.

(** The transcript of a session. *)
Definition transcript (w : World) : list Message :=
  default [] (chat (session w)).

(** The session on which a request works: [index] resets a session without
    transcript before anything else. *)
Definition opened (s : Session) : Session :=
  match chat s with
  | None => reset_session s
  | Some _ => s
  end.

(** The text of a request as the program reads it. *)
Definition text_of (req : Request) : string :=
  strip (default "" (form_message req)).

Definition is_close_phrase (text : string) : Prop :=
  In (lower text) CLOSE_PHRASES.

Definition is_affirmative (text : string) : Prop :=
  In (lower text) AFFIRMATIVE.

Definition is_reset_action (req : Request) : Prop :=
  form_action req = Some "reset".

(** A posted turn that reaches the processing of its text: not a close
    phrase, not the reset action, not empty. *)
Definition ordinary_turn (req : Request) : Prop :=
  method req = POST /\ ~ is_close_phrase (text_of req) /\
  ~ is_reset_action req /\ text_of req <> "".

(** The state in which a request is processed. *)
Definition state_of (w : World) : State :=
  default collect (state (opened (session w))).

(** The world in which the processing of an ordinary turn starts: the session
    is opened and the text of the user is in the transcript. *)
Definition turn_start (req : Request) (w : World) : World :=
  on_session (fun s => appended user (text_of req) (opened s)) w.

(** The world after the turn-level handler has dealt with exception [e]. *)
Definition recovered (e : Exn) (w : World) : World :=
  on_session (fun s => with_state collect
                         (appended assistant (ERROR_PREFIX +:+ exn_str e) s)) w.

(** The identifier and the token that an escalation started in [w] mints. *)
Definition next_issue_id (env : Env) (w : World) : string :=
  take 8 (uuid4_hex_of (urandom env (entropy_used w))).

Definition next_token (env : Env) (w : World) : string :=
  take 12 (uuid4_hex_of (urandom env (S (entropy_used w)))).

(** The world in which the mail of an escalation started in [w] is sent. *)
Definition issue_recorded (env : Env) (i : Issue) (w : World) : World :=
  mkWorld (session w) (<[next_issue_id env w := i]> (ISSUE_STORE w))
          (events w) (S (S (entropy_used w))).

Definition is_hex (c : ascii) : bool :=
  existsb (Ascii.eqb c) (list_ascii_of_string "0123456789abcdef").

Fixpoint all_hex (s : string) : bool :=
  match s with
  | EmptyString => true
  | String c s' => is_hex c && all_hex s'
  end.

(** The invariant of the conversation: a session that awaits a confirmation
    holds a pending query that passed the safety gate. *)
Definition confirm_has_pending (s : Session) : Prop :=
  state s = Some confirm ->
  exists q, pending_sql s = Some q /\ is_safe_sql q = true /\ q <> "".

(** A session that awaits a confirmation has a transcript and a pending query
    that passed the safety gate. *)
Definition session_ok (s : Session) : Prop :=
  (state s = Some confirm -> chat s <> None) /\ confirm_has_pending s.

(** The answer of every branch of [index] to a posted turn. *)
Definition REDIRECT : Response := Redirect "index".

Definition CANDIDATE_PROMPT : string :=
  "I found a query for that. Do you want me to run it? (Yes/No)".

Definition DECLINED_MESSAGE : string :=
  "Okay, not running that query. Ask me another question.".

Definition NEXT_REQUEST_PROMPT : string :=
  "Would you like to make another request or type 'close chat' to end?".

(** The message about an escalation, by the result of the mail delivery. *)
Definition escalation_message (ok : bool) (issue_id : string) : string :=
  if ok then "No data found. Issue **" +:+ issue_id +:+ "** escalated upstream."
  else "No data found, but failed to send email. Issue ID: " +:+ issue_id.

(** The ways in which the processing of a turn (the [try] block) can end:
    the result, and the world it leaves, for a turn with text [text] processed
    in state [st] from the world [w]. *)
Inductive turn_outcome (env : Env) (st : State) (text : string) (w : World)
  : Result Response -> World -> Prop :=
  | synthesis_failed e w1 :
      st = collect ->
      generate_sql_for_question env text w = (Raise e, w1) ->
      turn_outcome env st text w (Raise e) w1
  | candidate_rejected q w1 :
      st = collect ->
      generate_sql_for_question env text w = (Ok q, w1) ->
      is_safe_sql q = false ->
      turn_outcome env st text w (Ok REDIRECT)
        (on_session (appended assistant UNSAFE_MESSAGE) w1)
  | candidate_pending q w1 :
      st = collect ->
      generate_sql_for_question env text w = (Ok q, w1) ->
      is_safe_sql q = true ->
      turn_outcome env st text w (Ok REDIRECT)
        (on_session (fun s => with_state confirm
                                (appended assistant CANDIDATE_PROMPT
                                   (with_pending_sql q s))) w1)
  | declined :
      st = confirm ->
      ~ is_affirmative text ->
      turn_outcome env st text w (Ok REDIRECT)
        (on_session (fun s => with_state collect
                                (appended assistant DECLINED_MESSAGE s)) w)
  | execution_failed e :
      st = confirm ->
      is_affirmative text ->
      read_sql env (pending_sql (session w)) = Raise e ->
      turn_outcome env st text w (Raise e)
        (logged (EvSQL (pending_sql (session w))) w)
  | escalated df issue_id token ok w2 :
      st = confirm ->
      is_affirmative text ->
      read_sql env (pending_sql (session w)) = Ok df ->
      df_empty df = true ->
      create_and_send_issue env text (pending_sql (session w))
        (detect_table text) "No rows returned"
        (logged (EvSQL (pending_sql (session w))) w)
      = (Ok (issue_id, token, ok), w2) ->
      turn_outcome env st text w (Ok REDIRECT)
        (on_session (fun s => with_state collect
                                (appended assistant
                                   (escalation_message ok issue_id) s)) w2)
  | escalation_failed df e w2 :
      st = confirm ->
      is_affirmative text ->
      read_sql env (pending_sql (session w)) = Ok df ->
      df_empty df = true ->
      create_and_send_issue env text (pending_sql (session w))
        (detect_table text) "No rows returned"
        (logged (EvSQL (pending_sql (session w))) w)
      = (Raise e, w2) ->
      turn_outcome env st text w (Raise e) w2
  | export_failed df e w2 :
      st = confirm ->
      is_affirmative text ->
      read_sql env (pending_sql (session w)) = Ok df ->
      df_empty df = false ->
      save_df_to_files env df (logged (EvSQL (pending_sql (session w))) w)
      = (Raise e, w2) ->
      turn_outcome env st text w (Raise e) w2
  | preview_failed df files e w2 :
      st = confirm ->
      is_affirmative text ->
      read_sql env (pending_sql (session w)) = Ok df ->
      df_empty df = false ->
      save_df_to_files env df (logged (EvSQL (pending_sql (session w))) w)
      = (Ok files, w2) ->
      to_html env (df_head 20 df) = Raise e ->
      turn_outcome env st text w (Raise e)
        (on_session (with_latest_files files) w2)
  | results_shown df files preview w2 :
      st = confirm ->
      is_affirmative text ->
      read_sql env (pending_sql (session w)) = Ok df ->
      df_empty df = false ->
      save_df_to_files env df (logged (EvSQL (pending_sql (session w))) w)
      = (Ok files, w2) ->
      to_html env (df_head 20 df) = Ok preview ->
      turn_outcome env st text w (Ok REDIRECT)
        (on_session
           (fun s => with_state collect
                       (appended assistant NEXT_REQUEST_PROMPT
                          (appended assistant DOWNLOAD_LINKS
                             (appended assistant
                                ("Here are the results:<br>" +:+ preview)
                                (with_latest_files files s))))) w2).

(** The failures of a turn: the language model call of a turn in state
    collect raises, the execution of the pending query of a confirmed turn
    raises, or anything else in the processing of the turn raises. *)
Definition turn_fails (env : Env) (req : Request) (w : World) (e : Exn) : Prop :=
  (state_of w = collect /\
   llm_invoke env build_sql_prompt (user_prompt_of (text_of req)) = Raise e) \/
  (state_of w = confirm /\ is_affirmative (text_of req) /\
   read_sql env (pending_sql (opened (session w))) = Raise e) \/
  fst (process_turn env (state_of w) (text_of req) (turn_start req w)) = Raise e.

(** What the download route answers for a file type. *)
Definition served (filetype : string) (w : World) : Result Response :=
  fst (download_file filetype w).

(** The request closes or resets the conversation. *)
Definition resets (c : Call) (w : World) : Prop :=
  exists req, c = CallIndex req /\
    (chat (session w) = None \/
     (method req = POST /\ (is_close_phrase (text_of req) \/ is_reset_action req))).

(** The request is an approved query that returns a result with rows. *)
Definition yields_rows (env : Env) (c : Call) (w : World) : Prop :=
  exists req df, c = CallIndex req /\ ordinary_turn req /\
    state_of w = confirm /\ is_affirmative (text_of req) /\
    read_sql env (pending_sql (opened (session w))) = Ok df /\
    df_empty df = false.

End Vocabulary.

(** ** Example collaborators and sessions *)

Module Examples.
Import PyStr Safety Tables Runtime Uuid Mail App Vocabulary.

Definition OUT : string := "/tmp/ai_it_support_outputs".

(** No mail settings at all. *)
Definition no_mail_config : Config :=
  mkConfig None None None None None None None OUT.


Definition STOCK_QUESTION : string := "show stock for sku 1".

Definition STOCK_QUERY : string :=
  "SELECT * FROM sku JOIN inventory ON inventory.sku_id = sku.sku_id LIMIT 1000".

Definition no_rows : DataFrame := mkDataFrame ["sku_id"; "qty_on_hand"] [].

Definition two_rows : DataFrame :=
  mkDataFrame ["sku_id"; "qty_on_hand"] [["A1"; "4"]; ["B2"; "0"]].

Definition entropy (k : nat) : N :=
  (0x9f86d081884c7d659a2feaa0c55ad015 + N.of_nat k)%N.

(** Collaborators that answer every call in the same way. *)
Definition example_env (cfg : Config) (llm : Result string)
    (db : Result DataFrame) (smtp : bool -> Result unit) : Env :=
  mkEnv cfg (fun _ _ => llm) (fun _ => db) entropy
        (fun use_ssl _ _ _ _ => smtp use_ssl)
        (fun _ _ => Ok tt) (fun _ _ => Ok tt)
        (fun _ => Ok "<table></table>").

(** A bot without mail settings whose model proposes the stock query. *)
Definition bot (db : Result DataFrame) : Env :=
  example_env no_mail_config (Ok STOCK_QUERY) db (fun _ => Ok tt).


(** A bot whose language model is out of reach. *)
Definition bot_offline : Env :=
  example_env no_mail_config (Raise (mkExn Exception "Connection error."))
    (Ok no_rows) (fun _ => Ok tt).

Definition say (message : string) : Request :=
  mkRequest POST None (Some message).

Definition run (env : Env) (calls : list Call) (w : World) : World :=
  fold_left (fun w c => snd (handle env c w)) calls w.

(** A session that has been asked the stock question and awaits the
    confirmation. *)
Definition awaiting : World :=
  run (bot (Ok no_rows)) [CallIndex (say STOCK_QUESTION)] (fresh_world ∅).

(** A session that has shown a result with rows, and awaits the confirmation
    of the next query. *)
Definition awaiting_with_files : World :=
  run (bot (Ok two_rows))
      [CallIndex (say STOCK_QUESTION); CallIndex (say "yes");
       CallIndex (say STOCK_QUESTION)] (fresh_world ∅).

End Examples.

(** ** Vocabulary of the further properties *)

Module Coverage.
Import PyStr Safety Tables Runtime Uuid Mail App Vocabulary Examples.

(** A sequence of requests, each with the collaborators that serve it. *)
Definition play (steps : list (Env * Call)) (w : World) : World :=
  fold_left (fun w step => snd (handle (fst step) (snd step) w)) steps w.

(** The statements that reached the database, in order. *)
Fixpoint executed (evs : list Event) : list (option string) :=
  match evs with
  | [] => []
  | EvSQL q :: evs' => q :: executed evs'
  | _ :: evs' => executed evs'
  end.

(** The SMTP conversations among the events, in order. *)
Fixpoint conversations (evs : list Event) : list (bool * string * Z) :=
  match evs with
  | [] => []
  | EvSMTP use_ssl h p :: evs' => (use_ssl, h, p) :: conversations evs'
  | _ :: evs' => conversations evs'
  end.

(** The event of one SMTP conversation. *)
Definition smtp_event (a : bool * string * Z) : Event :=
  match a with
  | (use_ssl, h, p) => EvSMTP use_ssl h p
  end.

Definition is_smtp (ev : Event) : bool :=
  match ev with
  | EvSMTP _ _ _ => true
  | _ => false
  end.

Definition is_write (ev : Event) : bool :=
  match ev with
  | EvWrite _ => true
  | _ => false
  end.

(** The world after one draw of random bytes. *)
Definition drawn (w : World) : World :=
  mkWorld (session w) (ISSUE_STORE w) (events w) (S (entropy_used w)).

(** The request approves the pending query: an ordinary turn in state
    confirm with an affirmative text. *)
Definition approves (c : Call) (w : World) : Prop :=
  exists req, c = CallIndex req /\ ordinary_turn req /\
              state_of w = confirm /\ is_affirmative (text_of req).

(** The text of the turn, for a call of the index route. *)
Definition text_of_call (c : Call) : string :=
  match c with
  | CallIndex req => text_of req
  | CallDownload _ => EmptyString
  end.

(** The world in which the escalation of an approved query starts. *)
Definition escalation_start (c : Call) (w : World) : World :=
  match c with
  | CallIndex req =>
      logged (EvSQL (pending_sql (opened (session w)))) (turn_start req w)
  | CallDownload _ => w
  end.

(** The statement is a query that the safety gate accepts. *)
Definition gate_passed (q : option string) : Prop :=
  exists s, q = Some s /\ is_safe_sql s = true.

(** The transport is pinned by the environment. *)
Definition pinned (cfg : Config) : Prop :=
  truthy (env_SMTP_PORT cfg) = true \/ env_SMTP_USE_SSL cfg <> None.

(** The SSL flag of a pinned transport. *)
Definition pinned_ssl (cfg : Config) : bool :=
  in_set (lower (or_else (env_SMTP_USE_SSL cfg) "")) TRUE_WORDS.

(** The keyword sets without the keywords that contain another keyword of
    their set. *)
Definition ORDER_CORE : list string :=
  ["order"; "status"; "consignment"; "creation_date"; "ship_by_date";
   "deliver_by_date"].

Definition SKU_CORE : list string :=
  ["sku"; "stroke"; "description"; "tdept"; "color"; "item"; "product"].

Definition LOCATION_CORE : list string :=
  ["location"; "warehouse"; "zone"; "site"; "pick_sequence"; "modes"].

(** [detect_table] over the reduced keyword sets. *)
Definition detect_table_core (question : string) : string :=
  let q := lower question in
  if any_in ORDER_CORE q then
    if any_in SKU_CORE q then "order_header JOIN order_line"
    else "order_header"
  else if any_in SKU_CORE q then
    if any_in INVENTORY_KEYWORDS q then "sku JOIN inventory"
    else "sku"
  else if any_in LOCATION_CORE q then
    if any_in INVENTORY_KEYWORDS q then "location JOIN inventory"
    else "location"
  else if any_in INVENTORY_KEYWORDS q then "inventory"
  else "order_header".

(** A reply of the language model that wraps a query in a code fence with
    the language tag. *)
Definition fenced (q : string) : string :=
  "```sql" +:+ nl +:+ q +:+ nl +:+ "```".

(** The class of the characters that [strip("`")] removes. *)
Definition backtick (c : ascii) : bool :=
  existsb (Ascii.eqb c) (list_ascii_of_string "`").

(** Every character of the text is in the class. *)
Fixpoint all_chars_in (p : ascii -> bool) (s : string) : bool :=
  match s with
  | EmptyString => true
  | String c s' => p c && all_chars_in p s'
  end.

(** The session of a conversation that has started: the transcript opens
    with the greeting and the state is set. *)
Definition started (s : Session) : Prop :=
  (exists rest, chat s = Some (mkMessage assistant GREETING :: rest)) /\
  state s <> None.

(** The file references that an export with the token [unique] leaves. *)
Definition files_of (cfg : Config) (unique : string) : gmap string string :=
  <["csv" := OUT_DIR cfg +:+ "/results_" +:+ unique +:+ ".csv"]>
    (<["excel" := OUT_DIR cfg +:+ "/results_" +:+ unique +:+ ".xlsx"]> ∅).

End Coverage.

(** ** Further example collaborators *)

Module MoreExamples.
Import PyStr Safety Tables Runtime Uuid Mail App Vocabulary Examples Coverage.



(** A bot whose Excel export fails. *)
Definition bot_disk_full : Env :=
  mkEnv no_mail_config (fun _ _ => Ok STOCK_QUERY) (fun _ => Ok two_rows)
        entropy (fun _ _ _ _ _ => Ok tt)
        (fun _ _ => Ok tt)
        (fun _ _ => Raise (mkExn OSError "No space left on device"))
        (fun _ => Ok "<table></table>").

(** A bot whose model wraps the stock query in a fence. *)
Definition bot_fencing : Env :=
  example_env no_mail_config (Ok (fenced STOCK_QUERY)) (Ok no_rows)
    (fun _ => Ok tt).

Definition visit : Request := mkRequest GET None None.

Definition press_reset : Request :=
  mkRequest POST (Some "reset") (Some STOCK_QUESTION).

(** The question, then the approval, served by a bot whose query returns no
    rows. *)
Definition asked_and_approved : list (Env * Call) :=
  [(bot (Ok no_rows), CallIndex (say STOCK_QUESTION));
   (bot (Ok no_rows), CallIndex (say "yes"))].

End MoreExamples.

(** * Properties *)

Import PyStr Safety Tables Runtime Uuid Mail App Vocabulary Examples.

(** ** Text helpers *)

Lemma append_cons c (a b : string) : String c a +:+ b = String c (a +:+ b).
Proof. reflexivity. Qed.

Lemma append_nil_l (a : string) : "" +:+ a = a.
Proof. reflexivity. Qed.

(** String concatenation is not unfolded by [simpl]; this exposes the head
    constructor of a concatenation. *)
Ltac sapp := rewrite ?append_cons, ?append_nil_l in *.

Section TextFacts.

Lemma append_assoc (a b c : string) : (a +:+ b) +:+ c = a +:+ (b +:+ c).
Proof. induction a as [|x a IH]; sapp; [reflexivity | now rewrite IH]. Qed.

Lemma append_nil_r (a : string) : a +:+ "" = a.
Proof. induction a as [|x a IH]; sapp; [reflexivity | now rewrite IH]. Qed.





Lemma startswith_spec (p s : string) :
  startswith p s = true <-> exists suf, s = p +:+ suf.
Proof.
  revert s; induction p as [|a p IH]; intros s; simpl.
  - split; [intros _; now exists s | reflexivity].
  - destruct s as [|b s].
    + split; [discriminate | intros [suf H]; discriminate].
    + rewrite andb_true_iff, IH. split.
      * intros [Hab [suf ->]]. apply Ascii.eqb_eq in Hab. subst b. now exists suf.
      * intros [suf H]. sapp. injection H as -> ->.
        split; [apply Ascii.eqb_refl | now exists suf].
Qed.

Lemma contains_spec (k q : string) :
  contains k q = true <-> exists pre suf, q = pre +:+ k +:+ suf.
Proof.
  induction q as [|c q IH]; simpl; rewrite orb_true_iff, startswith_spec.
  - split.
    + intros [[suf H] | H]; [|discriminate]. now exists "", suf.
    + intros [pre [suf H]]. left. destruct pre; [now exists suf | discriminate].
  - rewrite IH. split.
    + intros [[suf H] | [pre [suf H]]].
      * now exists "", suf.
      * exists (String c pre), suf. sapp. now rewrite H.
    + intros [pre [suf H]]. destruct pre as [|x pre]; sapp.
      * left. now exists suf.
      * right. injection H as _ ->. now exists pre, suf.
Qed.

End TextFacts.

(** ** The search of [WRITE_PATTERN] against its reading as whole words *)

Section SafetyFacts.










End SafetyFacts.



(** ** The table heuristic *)

Section TableFacts.

Lemma any_in_spec (kws : list string) (question : string) :
  any_in kws (lower question) = true <-> mentions kws question.
Proof.
  unfold any_in, mentions. rewrite existsb_exists. split.
  - intros [k [Hin Hc]]. apply contains_spec in Hc as [pre [suf H]].
    now exists k, pre, suf.
  - intros [k [pre [suf [Hin H]]]]. exists k. split; [exact Hin|].
    apply contains_spec. now exists pre, suf.
Qed.

Lemma any_in_false (kws : list string) (question : string) :
  any_in kws (lower question) = false <-> ~ mentions kws question.
Proof.
  rewrite <- any_in_spec. destruct (any_in kws (lower question)); split;
    congruence.
Qed.

End TableFacts.

(** C7.  The table heuristic is a total function of the question whose value
    is one of seven labels and is the same for the same text.  It looks at the
    lower-cased text; the first of the order, sku, location and inventory
    keyword sets that is mentioned decides the table, a second set decides
    between the table alone and its join (sku for order, inventory for sku and
    for location), and the label is order_header when no set is mentioned. *)
Theorem detect_table_spec (question : string) :
  let label := detect_table question in
  let order := mentions ORDER_KEYWORDS question in
  let sku := mentions SKU_KEYWORDS question in
  let location := mentions LOCATION_KEYWORDS question in
  let inventory := mentions INVENTORY_KEYWORDS question in
  In label TABLE_LABELS /\
  (forall question', question' = question -> detect_table question' = label) /\
  (order -> sku -> label = "order_header JOIN order_line") /\
  (order -> ~ sku -> label = "order_header") /\
  (~ order -> sku -> inventory -> label = "sku JOIN inventory") /\
  (~ order -> sku -> ~ inventory -> label = "sku") /\
  (~ order -> ~ sku -> location -> inventory ->
   label = "location JOIN inventory") /\
  (~ order -> ~ sku -> location -> ~ inventory -> label = "location") /\
  (~ order -> ~ sku -> ~ location -> inventory -> label = "inventory") /\
  (~ order -> ~ sku -> ~ location -> ~ inventory -> label = "order_header").
Proof.
  cbv zeta. unfold detect_table.
  pose proof (any_in_spec ORDER_KEYWORDS question) as Ho.
  pose proof (any_in_spec SKU_KEYWORDS question) as Hs.
  pose proof (any_in_spec LOCATION_KEYWORDS question) as Hl.
  pose proof (any_in_spec INVENTORY_KEYWORDS question) as Hi.
  split.
  { destruct (any_in ORDER_KEYWORDS _), (any_in SKU_KEYWORDS _),
      (any_in LOCATION_KEYWORDS _), (any_in INVENTORY_KEYWORDS _);
      simpl; tauto. }
  split; [intros q' ->; reflexivity|].
  destruct (any_in ORDER_KEYWORDS _), (any_in SKU_KEYWORDS _),
    (any_in LOCATION_KEYWORDS _), (any_in INVENTORY_KEYWORDS _);
    repeat split; intros;
    try reflexivity;
    repeat match goal with
      | H : _ <-> ?P, Hn : ~ ?P |- _ => exfalso; apply Hn, H; reflexivity
      | H : false = true <-> ?P, Hp : ?P |- _ => apply H in Hp; discriminate
      end.
Qed.

(** A question about the stock of a SKU: sku wins over inventory and the
    inventory keyword selects the join. *)
Lemma detect_table_spec_witness :
  detect_table "Show STOCK for sku 1" = "sku JOIN inventory".
Proof.
  apply (detect_table_spec "Show STOCK for sku 1").
  - apply any_in_false. reflexivity.
  - apply any_in_spec. reflexivity.
  - apply any_in_spec. reflexivity.
Defined.


(** ** Mail delivery *)

Section MailFacts.
Variable env : Env.


Lemma events_logged ev w : events (logged ev w) = (events w ++ [ev])%list.
Proof. reflexivity. Qed.

Lemma events_logged2 a b w :
  events (logged b (logged a w)) = (events w ++ [a; b])%list.
Proof. unfold logged. cbn [events]. now rewrite <- app_assoc. Qed.

Lemma try_attempts_cons debug msg use_ssl h p rest w :
  try_attempts env debug msg ((use_ssl, h, p) :: rest) w =
  let w1 := logged (EvSMTP use_ssl h p) w in
  match smtp_session env use_ssl h p debug msg with
  | Ok _ => (Ok true, w1)
  | Raise e => if isinstance e MAIL_CAUGHT
               then try_attempts env debug msg rest w1
               else (Raise e, w1)
  end.
Proof.
  cbn [try_attempts]. unfold bind, try_except, emit, lift, ret, raise.
  destruct (smtp_session env use_ssl h p debug msg) as [u|e]; [reflexivity|].
  cbv zeta. destruct (isinstance e MAIL_CAUGHT); reflexivity.
Qed.

(** Mail delivery touches no part of the world but the record of the SMTP
    conversations. *)
Lemma try_attempts_frame debug msg attempts : forall w,
  let w' := snd (try_attempts env debug msg attempts w) in
  session w' = session w /\ ISSUE_STORE w' = ISSUE_STORE w /\
  entropy_used w' = entropy_used w.
Proof.
  induction attempts as [|[[use_ssl h] p] rest IH]; intros w; [simpl; auto|].
  cbn [try_attempts]. unfold bind, try_except, emit, lift, ret, raise.
  destruct (smtp_session env use_ssl h p debug msg) as [u|e]; [simpl; auto|].
  destruct (isinstance e MAIL_CAUGHT); [|simpl; auto].
  specialize (IH (logged (EvSMTP use_ssl h p) w)). simpl in IH. exact IH.
Qed.

Lemma send_mail_frame (subject body : string) (to : option string) w :
  let w' := snd (send_mail_to_upstream env subject body to w) in
  session w' = session w /\ ISSUE_STORE w' = ISSUE_STORE w /\
  entropy_used w' = entropy_used w.
Proof.
  unfold send_mail_to_upstream.
  destruct (negb _); [simpl; auto|].
  unfold bind at 1.
  destruct (truthy (env_SMTP_PORT (config env)) || _).
  - unfold bind at 1.
    destruct (truthy (env_SMTP_PORT (config env))).
    + destruct (py_int _); unfold ret, raise; [|simpl; auto].
      apply try_attempts_frame.
    + unfold ret. apply try_attempts_frame.
  - unfold ret. apply try_attempts_frame.
Qed.

(** Without credentials no conversation is attempted. *)
Lemma send_mail_without_credentials (subject body : string) (to : option string) w :
  ~ credentials_present (config env) ->
  send_mail_to_upstream env subject body to w = (Ok false, w).
Proof.
  intros H. unfold send_mail_to_upstream, credentials_present in *.
  destruct (truthy (SMTP_USER _)), (truthy (SMTP_PASS _)),
    (truthy (UPSTREAM_EMAIL _)); try reflexivity.
  exfalso. apply H. auto.
Qed.


End MailFacts.


Lemma on_session_compose (f g : Session -> Session) (w : World) :
  on_session f (on_session g w) = on_session (fun s => f (g s)) w.
Proof. reflexivity. Qed.

(** Reads off the result and the world of a computed step, with the session
    updates merged into one. *)
Ltac close_pair P :=
  cbv beta iota in P; rewrite ?on_session_compose in P; cbv beta in P;
  injection P as <- <-.

(** ** The escalation and the file export *)

Section EscalationFacts.
Variable env : Env.

Lemma in_set_spec (x : string) (l : list string) :
  in_set x l = true <-> In x l.
Proof.
  unfold in_set. rewrite existsb_exists. split.
  - intros [y [Hin Heq]]. apply String.eqb_eq in Heq. now subst.
  - intros Hin. exists x. split; [exact Hin | apply String.eqb_refl].
Qed.

Lemma in_set_false (x : string) (l : list string) :
  in_set x l = false <-> ~ In x l.
Proof. rewrite <- in_set_spec. destruct (in_set x l); split; congruence. Qed.

(** The escalation as one step: the identifier and the token are minted, the
    issue is recorded, and the mail is sent from the world that holds it. *)
Lemma create_and_send_issue_eq (q : string) (sql : option string)
    (table details : string) (w : World) :
  create_and_send_issue env q sql table details w =
  let issue_id := next_issue_id env w in
  let token := next_token env w in
  let sent :=
    send_mail_to_upstream env (issue_subject table issue_id)
      (issue_body token q sql details) None
      (issue_recorded env (mkIssue q sql table details "open") w) in
  (match fst sent with
   | Ok ok => Ok (issue_id, token, ok)
   | Raise e => Raise e
   end, snd sent).
Proof.
  unfold create_and_send_issue, bind, uuid4_hex, store_issue, ret, stored,
    issue_recorded, next_issue_id, next_token.
  cbn [session ISSUE_STORE events entropy_used]. cbv zeta.
  destruct (send_mail_to_upstream _ _ _ _ _) as [[ok|e] w2]; reflexivity.
Qed.

Lemma create_and_send_issue_frame (q : string) (sql : option string)
    (table details : string) (w : World) :
  let w' := snd (create_and_send_issue env q sql table details w) in
  session w' = session w /\
  ISSUE_STORE w' =
    <[next_issue_id env w := mkIssue q sql table details "open"]>
      (ISSUE_STORE w).
Proof.
  rewrite create_and_send_issue_eq. cbv zeta. cbn [snd].
  destruct (send_mail_frame env
              (issue_subject table (next_issue_id env w))
              (issue_body (next_token env w) q sql details) None
              (issue_recorded env (mkIssue q sql table details "open") w))
    as [Hs [Hi _]].
  rewrite Hs, Hi. split; reflexivity.
Qed.

Lemma save_df_to_files_frame (df : DataFrame) (w : World) :
  let w' := snd (save_df_to_files env df w) in
  session w' = session w /\ ISSUE_STORE w' = ISSUE_STORE w.
Proof.
  unfold save_df_to_files, bind, uuid4_hex, emit, lift, ret, logged.
  cbn [session ISSUE_STORE events entropy_used].
  destruct (to_csv env _ df); [|split; reflexivity].
  destruct (to_excel env _ df); split; reflexivity.
Qed.

Lemma generate_sql_frame (q : string) (w : World) :
  snd (generate_sql_for_question env q w) = logged (EvLLM (user_prompt_of q)) w
  /\ (forall e, fst (generate_sql_for_question env q w) = Raise e <->
                llm_invoke env build_sql_prompt (user_prompt_of q) = Raise e).
Proof.
  unfold generate_sql_for_question, bind, emit, lift, ret. cbv zeta.
  destruct (llm_invoke env build_sql_prompt (user_prompt_of q)) as [c|e'];
    cbn [fst snd]; split; try reflexivity; intros e; split; congruence.
Qed.

(** The processing of a turn ends in one of the ways of [turn_outcome]. *)
Lemma process_turn_outcome (st : State) (text : string) (w : World) :
  turn_outcome env st text w (fst (process_turn env st text w))
    (snd (process_turn env st text w)).
Proof.
  destruct (process_turn env st text w) as [r w'] eqn:P. cbn [fst snd].
  unfold process_turn in P.
  unfold set_state, set_pending_sql, set_latest_files, append_message,
    run_sql_to_df in P.
  unfold bind, ret, lift, raise, emit, get_session, modify_session in P.
  destruct st.
  - destruct (generate_sql_for_question env text w) as [[q|e] w1] eqn:G.
    + destruct (is_safe_sql q) eqn:S; cbv beta iota delta [negb] in P;
        close_pair P.
      * eapply candidate_pending; eauto.
      * eapply candidate_rejected; eauto.
    + close_pair P. eapply synthesis_failed; eauto.
  - destruct (in_set (lower text) AFFIRMATIVE) eqn:A.
    + apply in_set_spec in A. cbv beta iota in P.
      destruct (read_sql env (pending_sql (session w))) as [df|e] eqn:R.
      * destruct (df_empty df) eqn:D.
        -- destruct (create_and_send_issue env text _ _ _ _)
             as [[[[issue_id token] ok]|e] w2] eqn:C.
           ++ destruct ok; cbv beta iota in P; close_pair P;
                [eapply (escalated _ _ _ _ df issue_id token true)
                |eapply (escalated _ _ _ _ df issue_id token false)]; eauto.
           ++ close_pair P. eapply escalation_failed; eauto.
        -- destruct (save_df_to_files env df _) as [[files|e] w2] eqn:F.
           ++ cbv beta iota in P.
              destruct (to_html env (df_head 20 df)) as [preview|e] eqn:H;
                cbv beta iota in P; close_pair P.
              ** eapply results_shown; eauto.
              ** eapply preview_failed; eauto.
           ++ close_pair P. eapply export_failed; eauto.
      * close_pair P. eapply execution_failed; eauto.
    + apply in_set_false in A. cbv beta iota in P. close_pair P.
      eapply declined; eauto.
Qed.

End EscalationFacts.

(** ** The index route, request by request *)

Section IndexFacts.
Variable env : Env.

(** [index] as a case distinction on the request, from the world [w]. *)
Lemma index_unfold (req : Request) (w : World) :
  index env req w =
  match method req with
  | POST =>
      if in_set (lower (text_of req)) CLOSE_PHRASES then
        (Ok REDIRECT, on_session reset_session w)
      else if String.eqb (default "message" (form_action req)) "reset" then
        (Ok REDIRECT, on_session reset_session w)
      else if String.eqb (text_of req) "" then
        (Ok REDIRECT,
         logged (EvFlash "Please enter a message." "warning")
                (on_session opened w))
      else
        let out := process_turn env (state_of w) (text_of req)
                     (turn_start req w) in
        match fst out with
        | Ok resp => (Ok resp, snd out)
        | Raise e => (Ok REDIRECT, recovered e (snd out))
        end
  | GET =>
      (Ok (RenderTemplate "index.html" (default [] (chat (opened (session w))))
                          (state_of w)),
       on_session opened w)
  end.
Proof.
  destruct w as [s store evs n].
  unfold index, text_of, state_of, turn_start, recovered, REDIRECT.
  unfold reset_chat, append_message, set_state, flash.
  unfold bind, get_session, emit, modify_session, ret, try_except.
  unfold on_session, logged, opened.
  cbn [session ISSUE_STORE events entropy_used].
  destruct (chat s) as [msgs|] eqn:C.
  - rewrite bool_decide_false by discriminate.
    cbv beta iota. cbn [session ISSUE_STORE events entropy_used].
    rewrite C.
    destruct (method req); [reflexivity|].
    destruct (in_set _ CLOSE_PHRASES); [reflexivity|].
    destruct (String.eqb (default "message" (form_action req)) "reset");
      [reflexivity|].
    destruct (String.eqb _ ""); [reflexivity|].
    cbv zeta.
    destruct (process_turn env _ _ _) as [[resp|e] w2]; reflexivity.
  - rewrite bool_decide_true by reflexivity.
    cbv beta iota. cbn [session ISSUE_STORE events entropy_used].
    destruct (method req); [reflexivity|].
    destruct (in_set _ CLOSE_PHRASES); [reflexivity|].
    destruct (String.eqb (default "message" (form_action req)) "reset");
      [reflexivity|].
    destruct (String.eqb _ ""); [reflexivity|].
    cbv zeta.
    destruct (process_turn env _ _ _) as [[resp|e] w2]; reflexivity.
Qed.

Lemma reset_action_spec (req : Request) :
  String.eqb (default "message" (form_action req)) "reset" = true <->
  is_reset_action req.
Proof.
  unfold is_reset_action. rewrite String.eqb_eq.
  destruct (form_action req) as [a|]; simpl; split; intros H;
    try congruence; discriminate.
Qed.

(** Whether a request is an ordinary turn is decided by the tests of
    [index]. *)
Lemma ordinary_turn_decided (req : Request) : ordinary_turn req \/ ~ ordinary_turn req.
Proof.
  unfold ordinary_turn.
  destruct (method req).
  - right. intros [H _]. discriminate.
  - destruct (in_set (lower (text_of req)) CLOSE_PHRASES) eqn:Hc.
    + right. apply in_set_spec in Hc. tauto.
    + apply in_set_false in Hc.
      destruct (String.eqb (default "message" (form_action req)) "reset") eqn:R.
      * right. apply reset_action_spec in R. tauto.
      * assert (~ is_reset_action req) as Hr
          by (intros Hr; apply reset_action_spec in Hr; congruence).
        destruct (String.eqb (text_of req) "") eqn:T.
        -- right. apply String.eqb_eq in T. tauto.
        -- left. apply String.eqb_neq in T. tauto.
Qed.

(** An ordinary turn: the text is appended, processed, and an exception of
    the processing is answered by the turn-level handler. *)
Lemma index_ordinary (req : Request) (w : World) :
  ordinary_turn req ->
  let out := process_turn env (state_of w) (text_of req) (turn_start req w) in
  index env req w =
  match fst out with
  | Ok resp => (Ok resp, snd out)
  | Raise e => (Ok REDIRECT, recovered e (snd out))
  end.
Proof.
  intros [Hm [Hc [Hr Ht]]]. rewrite index_unfold, Hm.
  apply in_set_false in Hc. rewrite Hc.
  destruct (String.eqb (default "message" (form_action req)) "reset") eqn:R;
    [apply reset_action_spec in R; contradiction|].
  destruct (String.eqb (text_of req) "") eqn:T;
    [apply String.eqb_eq in T; contradiction|].
  reflexivity.
Qed.

(** A request that is no ordinary turn leaves the session as it is, or as
    a reset leaves it; the issue mapping is not touched. *)
Lemma index_other (req : Request) (w : World) :
  ~ ordinary_turn req ->
  let w' := snd (index env req w) in
  ISSUE_STORE w' = ISSUE_STORE w /\
  (session w' = reset_session (session w) /\
     (chat (session w) = None \/
      (method req = POST /\
       (is_close_phrase (text_of req) \/ is_reset_action req)))
   \/ session w' = session w /\ chat (session w) <> None).
Proof.
  intros Hn. cbv zeta. rewrite index_unfold.
  assert (chat (session w) = None ->
          opened (session w) = reset_session (session w)) as Hnone.
  { intros C. unfold opened. now rewrite C. }
  assert (chat (session w) <> None -> opened (session w) = session w) as Hsome.
  { intros C. unfold opened. destruct (chat (session w)); congruence. }
  assert (method req = POST ->
          in_set (lower (text_of req)) CLOSE_PHRASES = false ->
          String.eqb (default "message" (form_action req)) "reset" = false ->
          String.eqb (text_of req) "" = false -> False) as Hord.
  { intros Hm Hc R T. apply Hn. repeat split; auto.
    - now apply in_set_false.
    - intros Hr. apply reset_action_spec in Hr. congruence.
    - intros Ht. apply String.eqb_neq in T. contradiction. }
  destruct (method req) eqn:Hm.
  - cbn [snd on_session session ISSUE_STORE]. split; [reflexivity|].
    destruct (chat (session w)) eqn:C.
    + right. split; [apply Hsome; discriminate | discriminate].
    + left. split; [apply Hnone; reflexivity | now left].
  - destruct (in_set _ CLOSE_PHRASES) eqn:Hc.
    { apply in_set_spec in Hc. cbn [snd on_session session ISSUE_STORE].
      split; [reflexivity|]. left. split; auto. }
    destruct (String.eqb (default "message" (form_action req)) "reset") eqn:R.
    { apply reset_action_spec in R. cbn [snd on_session session ISSUE_STORE].
      split; [reflexivity|]. left. split; auto. }
    destruct (String.eqb (text_of req) "") eqn:T; [|exfalso; auto].
    cbn [snd logged on_session session ISSUE_STORE]. split; [reflexivity|].
    destruct (chat (session w)) eqn:C.
    + right. split; [apply Hsome; discriminate | discriminate].
    + left. split; [apply Hnone; reflexivity | now left].
Qed.

End IndexFacts.

(** ** The conversation, turn by turn *)

(** Replaces the equations of the collaborating steps of a turn by what they
    leave of the session and of the issue mapping. *)
Ltac frames :=
  repeat match goal with
    | G : generate_sql_for_question ?env ?t ?w = (_, ?w1) |- _ =>
        let H := fresh "Hgen" in
        pose proof (proj1 (generate_sql_frame env t w)) as H;
        rewrite G in H; cbn [snd] in H; clear G; subst w1
    | C : create_and_send_issue ?env ?q ?s ?t ?d ?w = (_, ?w2) |- _ =>
        let Hs := fresh "Hses" in
        let Hi := fresh "Hstore" in
        destruct (create_and_send_issue_frame env q s t d w) as [Hs Hi];
        rewrite C in Hs, Hi; cbn [snd] in Hs, Hi; clear C
    | F : save_df_to_files ?env ?df ?w = (_, ?w2) |- _ =>
        let Hs := fresh "Hses" in
        let Hi := fresh "Hstore" in
        destruct (save_df_to_files_frame env df w) as [Hs Hi];
        rewrite F in Hs, Hi; cbn [snd] in Hs, Hi; clear F
    end.

(** Computes the fields of the session and of the world through the updates
    of a turn. *)
Ltac fields :=
  unfold transcript, recovered, turn_start in *;
  cbn [session ISSUE_STORE events entropy_used on_session logged recovered
       turn_start chat state pending_sql latest_files appended with_state
       with_pending_sql with_latest_files reset_session from_option id] in *.

Section TurnFacts.
Variable env : Env.

Lemma opened_chat (s : Session) : chat (opened s) <> None.
Proof.
  unfold opened. destruct (chat s) eqn:C; [rewrite C|]; discriminate.
Qed.

Lemma opened_confirm (s : Session) :
  default collect (state (opened s)) = confirm -> opened s = s.
Proof. unfold opened. destruct (chat s); [reflexivity | discriminate]. Qed.

(** What the processing of a turn does to the transcript: it appends
    messages of the assistant, at least one unless it raises; an exception
    leaves the state and the pending query as they were. *)
Lemma process_turn_transcript (st : State) (text : string) (w : World) :
  let r := fst (process_turn env st text w) in
  let w' := snd (process_turn env st text w) in
  exists more,
    transcript w' = (transcript w ++ more)%list /\
    Forall (fun m => role m = assistant) more /\
    match r with
    | Ok resp => resp = REDIRECT /\ more <> []
    | Raise e =>
        more = [] /\ state (session w') = state (session w) /\
        pending_sql (session w') = pending_sql (session w)
    end.
Proof.
  cbv zeta. pose proof (process_turn_outcome env st text w) as O.
  destruct (process_turn env st text w) as [r w']. cbn [fst snd] in *.
  destruct O; frames; subst; fields; try rewrite !Hses; fields;
    first [ exists []; rewrite app_nil_r; now auto
          | eexists [_]; repeat split; auto; try discriminate;
            now repeat constructor
          | eexists [_; _; _]; rewrite <- !app_assoc; repeat split; auto;
            try discriminate; now repeat constructor ].
Qed.

(** What a turn that does not raise does to the state and to the pending
    query: a turn in state collect either leaves both or moves to confirm
    with a query that passed the safety gate; a turn in state confirm moves
    to collect and leaves the pending query. *)
Lemma process_turn_state (st : State) (text : string) (w : World) resp :
  let w' := snd (process_turn env st text w) in
  fst (process_turn env st text w) = Ok resp ->
  match st with
  | collect =>
      (state (session w') = state (session w) /\
       pending_sql (session w') = pending_sql (session w)) \/
      (state (session w') = Some confirm /\
       exists q, pending_sql (session w') = Some q /\ is_safe_sql q = true)
  | confirm =>
      state (session w') = Some collect /\
      pending_sql (session w') = pending_sql (session w)
  end.
Proof.
  cbv zeta. pose proof (process_turn_outcome env st text w) as O.
  destruct (process_turn env st text w) as [r w']. cbn [fst snd] in *.
  intros ->.
  inversion O; subst; frames; subst; fields; try rewrite !Hses; fields;
    eauto.
Qed.

(** The file references change only with a result that has rows. *)
Lemma process_turn_files (st : State) (text : string) (w : World) :
  let w' := snd (process_turn env st text w) in
  latest_files (session w') = latest_files (session w) \/
  st = confirm /\ is_affirmative text /\
  exists df files,
    read_sql env (pending_sql (session w)) = Ok df /\ df_empty df = false /\
    latest_files (session w') = Some files.
Proof.
  cbv zeta. pose proof (process_turn_outcome env st text w) as O.
  destruct (process_turn env st text w) as [r w']. cbn [fst snd] in *.
  destruct O; frames; subst; fields; try rewrite !Hses; fields;
    eauto 10.
Qed.

End TurnFacts.

(** C5.  In every state of the session, a posted turn whose trimmed text is
    a close phrase in any letter case resets the session: the transcript is
    the greeting alone, the state is collect, and neither a pending query nor
    file references remain. *)
Theorem close_phrase_resets (env : Env) (req : Request) (w : World) :
  method req = POST -> is_close_phrase (text_of req) ->
  fst (index env req w) = Ok REDIRECT /\
  session (snd (index env req w)) =
    mkSession (Some [mkMessage assistant GREETING]) (Some collect) None None.
Proof.
  intros Hm Hc. rewrite index_unfold, Hm.
  apply in_set_spec in Hc. rewrite Hc. split; reflexivity.
Qed.


Section FailureFacts.
Variable env : Env.

Lemma process_turn_synthesis_failure (text : string) (w : World) (e : Exn) :
  llm_invoke env build_sql_prompt (user_prompt_of text) = Raise e ->
  fst (process_turn env collect text w) = Raise e.
Proof.
  intros H. apply (generate_sql_frame env text w) in H.
  pose proof (process_turn_outcome env collect text w) as O.
  destruct (process_turn env collect text w) as [r w']. cbn [fst snd] in *.
  inversion O; subst; try discriminate;
    match goal with G : generate_sql_for_question _ _ _ = _ |- _ =>
      rewrite G in H; cbn [fst] in H; congruence end.
Qed.

Lemma process_turn_execution_failure (text : string) (w : World) (e : Exn) :
  is_affirmative text ->
  read_sql env (pending_sql (session w)) = Raise e ->
  fst (process_turn env confirm text w) = Raise e.
Proof.
  intros A H.
  pose proof (process_turn_outcome env confirm text w) as O.
  destruct (process_turn env confirm text w) as [r w']. cbn [fst snd] in *.
  inversion O; subst; try discriminate; try contradiction; congruence.
Qed.

Lemma turn_fails_raises (req : Request) (w : World) (e : Exn) :
  turn_fails env req w e ->
  fst (process_turn env (state_of w) (text_of req) (turn_start req w)) = Raise e.
Proof.
  intros [[Hst H] | [[Hst [A H]] | H]]; [| |exact H]; rewrite Hst.
  - now apply process_turn_synthesis_failure.
  - now apply process_turn_execution_failure.
Qed.

Lemma index_never_raises (req : Request) (w : World) :
  exists resp, fst (index env req w) = Ok resp.
Proof.
  rewrite index_unfold.
  destruct (method req); [eexists; reflexivity|].
  destruct (in_set _ CLOSE_PHRASES); [eexists; reflexivity|].
  destruct (String.eqb _ "reset"); [eexists; reflexivity|].
  destruct (String.eqb _ ""); [eexists; reflexivity|].
  cbv zeta. destruct (fst (process_turn env _ _ _)); eexists; reflexivity.
Qed.

End FailureFacts.

(** C6.  No request makes the index route raise.  When the processing of an
    ordinary turn raises (the language model call of a turn in state collect,
    the execution of the pending query of a confirmed turn, or any other
    step), the turn is answered by a redirect, the transcript is the one
    before the turn followed by the text of the user and one error message
    of the assistant that carries the text of the exception, the state is
    collect, and the pending query is as it was. *)
Theorem turn_failures_are_caught (env : Env) (req : Request) (w : World)
    (e : Exn) :
  (exists resp, fst (index env req w) = Ok resp) /\
  (ordinary_turn req -> turn_fails env req w e ->
   let w' := snd (index env req w) in
   fst (index env req w) = Ok REDIRECT /\
   transcript w' =
     (transcript (on_session opened w) ++
      [mkMessage user (text_of req);
       mkMessage assistant (ERROR_PREFIX +:+ exn_str e)])%list /\
   state (session w') = Some collect /\
   pending_sql (session w') = pending_sql (opened (session w))).
Proof.
  split; [apply index_never_raises|].
  intros Hord Hfail. apply turn_fails_raises in Hfail.
  cbv zeta. rewrite (index_ordinary env req w Hord). cbv zeta.
  destruct (process_turn_transcript env (state_of w) (text_of req)
              (turn_start req w)) as [more [Ht [_ Hr]]].
  rewrite Hfail in *. destruct Hr as [-> [Hs Hp]]. cbn [fst snd].
  fields. rewrite Ht, Hp, app_nil_r, <- app_assoc. auto.
Qed.

(** ** The invariant of the conversation *)

Section InvariantFacts.

Lemma process_turn_chat (env : Env) (st : State) (text : string) (w : World) :
  chat (session w) <> None ->
  chat (session (snd (process_turn env st text w))) <> None.
Proof.
  intros Hc. pose proof (process_turn_outcome env st text w) as O.
  destruct (process_turn env st text w) as [r w']. cbn [fst snd] in *.
  destruct O; frames; subst; fields; try rewrite !Hses; fields;
    solve [exact Hc | discriminate].
Qed.

Lemma download_file_session (filetype : string) (w : World) :
  session (snd (download_file filetype w)) = session w.
Proof.
  unfold download_file, bind, get_session, flash, emit, ret.
  destruct (latest_files (session w)) as [files|]; [|reflexivity].
  destruct (bool_decide (files = ∅)); [reflexivity|].
  destruct (files !! filetype); reflexivity.
Qed.

Lemma is_safe_sql_nonempty (q : string) : is_safe_sql q = true -> q <> "".
Proof. intros H ->. discriminate. Qed.

Lemma index_session_ok (env : Env) (req : Request) (w : World) :
  session_ok (session w) -> session_ok (session (snd (index env req w))).
Proof.
  intros [Hchat Hinv].
  destruct (ordinary_turn_decided req) as [Hord | Hn].
  - rewrite (index_ordinary env req w Hord). cbv zeta.
    pose proof (process_turn_chat env (state_of w) (text_of req)
                  (turn_start req w)) as Hc.
    pose proof (process_turn_state env (state_of w) (text_of req)
                  (turn_start req w)) as Hs.
    destruct (fst (process_turn env _ _ _)) as [resp|e]; cbn [snd].
    + specialize (Hs resp eq_refl). cbv zeta in Hs.
      split; [intros _; apply Hc; fields; discriminate|].
      intros Hst. unfold state_of in *.
      destruct (default collect (state (opened (session w)))) eqn:D.
      * destruct Hs as [[Hs _] | [_ [q [Hq Hsafe]]]].
        -- fields. rewrite Hs in Hst. rewrite Hst in D. discriminate.
        -- exists q. repeat split; auto. now apply is_safe_sql_nonempty.
      * destruct Hs as [Hs _]. congruence.
    + split; intros Hst; fields; discriminate.
  - destruct (index_other env req w Hn) as [_ [[Hs _] | [Hs Hc]]];
      rewrite Hs.
    + split; intros Hst; discriminate.
    + split; assumption.
Qed.

Lemma reachable_session_ok (w : World) : reachable w -> session_ok (session w).
Proof.
  induction 1 as [store | env c w Hw IH].
  - split; intros H; discriminate.
  - destruct c as [req | filetype]; cbn [handle].
    + now apply index_session_ok.
    + now rewrite download_file_session.
Qed.

End InvariantFacts.

Section ConfirmFacts.
Variable env : Env.

Lemma opened_of_chat (s : Session) : chat s <> None -> opened s = s.
Proof. unfold opened. destruct (chat s); congruence. Qed.



End ConfirmFacts.


(** ** The file references *)

Section FileFacts.
Variable env : Env.

Lemma served_by_files (filetype : string) (w w' : World) :
  latest_files (session w') = latest_files (session w) ->
  served filetype w' = served filetype w.
Proof.
  intros H. unfold served, download_file, bind, get_session, flash, emit, ret.
  rewrite H. destruct (latest_files (session w)) as [files|]; [|reflexivity].
  destruct (bool_decide (files = ∅)); [reflexivity|].
  destruct (files !! filetype); reflexivity.
Qed.

(** An escalation, delivered or not, leaves the session as the turn found
    it, but for the transcript and the state. *)
Lemma process_turn_escalation (text : string) (w : World) (df : DataFrame) :
  is_affirmative text ->
  read_sql env (pending_sql (session w)) = Ok df -> df_empty df = true ->
  let esc :=
    create_and_send_issue env text (pending_sql (session w))
      (detect_table text) "No rows returned"
      (logged (EvSQL (pending_sql (session w))) w) in
  process_turn env confirm text w =
  match fst esc with
  | Ok (issue_id, token, ok) =>
      (Ok REDIRECT,
       on_session (fun s => with_state collect
                              (appended assistant
                                 (escalation_message ok issue_id) s))
                  (snd esc))
  | Raise e => (Raise e, snd esc)
  end.
Proof.
  intros A R D. cbv zeta.
  pose proof (process_turn_outcome env confirm text w) as O.
  destruct (process_turn env confirm text w) as [r w']. cbn [fst snd] in *.
  inversion O; subst; try discriminate; try contradiction; try congruence;
    match goal with C : create_and_send_issue _ _ _ _ _ _ = _ |- _ =>
      rewrite C end; reflexivity.
Qed.

End FileFacts.

(** C10.  A request changes the file references of the session only if it
    closes or resets the conversation, and then none remain, or if it is an
    approved query whose result has rows.  In particular an approved query
    whose result is empty leaves them as they are, so that the download route
    answers every file type after the escalation as it did before. *)
Theorem escalation_keeps_latest_files (env : Env) (c : Call) (w : World) :
  let w' := snd (handle env c w) in
  (forall req df,
     c = CallIndex req -> ordinary_turn req -> state_of w = confirm ->
     is_affirmative (text_of req) ->
     read_sql env (pending_sql (opened (session w))) = Ok df ->
     df_empty df = true ->
     latest_files (session w') = latest_files (session w) /\
     forall filetype, served filetype w' = served filetype w) /\
  (latest_files (session w') <> latest_files (session w) ->
   resets c w \/ yields_rows env c w) /\
  (resets c w -> latest_files (session w') = None).
Proof.
  cbv zeta. split; [|split].
  - intros req df -> Hord Hst A R D. cbn [handle].
    assert (latest_files (session (snd (index env req w)))
            = latest_files (session w)) as H.
    { assert (opened (session w) = session w) as Ho
        by (apply opened_confirm; exact Hst).
      rewrite (index_ordinary env req w Hord). cbv zeta. rewrite Hst.
      assert (pending_sql (session (turn_start req w))
              = pending_sql (opened (session w))) as Hp by reflexivity.
      rewrite (process_turn_escalation env (text_of req) (turn_start req w) df A)
        by (try rewrite Hp; assumption).
      cbv zeta.
      destruct (create_and_send_issue_frame env (text_of req)
                  (pending_sql (session (turn_start req w)))
                  (detect_table (text_of req)) "No rows returned"
                  (logged (EvSQL (pending_sql (session (turn_start req w))))
                          (turn_start req w))) as [Hs _].
      destruct (fst (create_and_send_issue env _ _ _ _ _))
        as [[[issue_id token] ok]|e]; cbn [fst snd]; fields;
        rewrite Hs; fields; now rewrite Ho. }
    split; [exact H|]. intros filetype. now apply served_by_files.
  - intros Hne. destruct c as [req | filetype]; cbn [handle] in Hne.
    + destruct (ordinary_turn_decided req) as [Hord | Hn].
      * destruct (chat (session w)) eqn:C;
          [|left; exists req; split; [reflexivity | now left]].
        assert (opened (session w) = session w) as Ho
          by (apply opened_of_chat; congruence).
        right. rewrite (index_ordinary env req w Hord) in Hne. cbv zeta in Hne.
        destruct (process_turn_files env (state_of w) (text_of req)
                    (turn_start req w)) as [Hsame | [Hst [A [df [files [R [D _]]]]]]].
        -- exfalso. apply Hne.
           destruct (fst (process_turn env _ _ _)); cbn [snd]; fields;
             rewrite Hsame; fields; now rewrite Ho.
        -- exists req, df. repeat split; try apply Hord; auto.
      * destruct (index_other env req w Hn) as [_ [[Hs Hr] | [Hs Hc]]].
        -- left. exists req. split; [reflexivity | exact Hr].
        -- exfalso. apply Hne. now rewrite Hs.
    + exfalso. apply Hne. now rewrite download_file_session.
  - intros [req [-> Hr]]. cbn [handle].
    destruct Hr as [C | [Hm Hr]].
    + assert (opened (session w) = reset_session (session w)) as Ho
        by (unfold opened; now rewrite C).
      destruct (ordinary_turn_decided req) as [Hord | Hn].
      * rewrite (index_ordinary env req w Hord). cbv zeta.
        assert (state_of w = collect) as Hst
          by (unfold state_of; now rewrite Ho).
        destruct (process_turn_files env (state_of w) (text_of req)
                    (turn_start req w)) as [Hsame | [Hst' _]];
          [|congruence].
        destruct (fst (process_turn env _ _ _)); cbn [snd]; fields;
          rewrite Hsame; fields; now rewrite Ho.
      * destruct (index_other env req w Hn) as [_ [[Hs _] | [Hs Hc]]];
          [now rewrite Hs | contradiction].
    + rewrite index_unfold, Hm. destruct Hr as [Hc | Hr].
      * apply in_set_spec in Hc. rewrite Hc. reflexivity.
      * apply reset_action_spec in Hr. rewrite Hr.
        destruct (in_set _ CLOSE_PHRASES); reflexivity.
Qed.

(** ** Identifiers *)

Section IdentifierFacts.

Lemma hex_fixed_length (digits : nat) (n : N) :
  String.length (hex_fixed digits n) = digits.
Proof. induction digits as [|d IH]; simpl; [reflexivity | now rewrite IH]. Qed.

Lemma take_length (n : nat) (s : string) :
  n <= String.length s -> String.length (take n s) = n.
Proof.
  revert s; induction n as [|n IH]; intros s H; [reflexivity|].
  destruct s as [|c s]; simpl in *; [lia|]. rewrite IH; [reflexivity | lia].
Qed.

Lemma hex_digit_is_hex (n : N) : is_hex (hex_digit (N.land n 15)) = true.
Proof.
  assert (N.land n 15 < 16)%N as H.
  { change 15%N with (N.ones 4). rewrite N.land_ones.
    apply N.mod_lt. discriminate. }
  destruct (N.land n 15) as [|p]; [reflexivity|].
  do 4 (try destruct p as [p|p|]); try reflexivity; lia.
Qed.

Lemma hex_fixed_all_hex (digits : nat) (n : N) :
  all_hex (hex_fixed digits n) = true.
Proof.
  induction digits as [|d IH]; [reflexivity|].
  cbn [hex_fixed all_hex]. now rewrite hex_digit_is_hex, IH.
Qed.

Lemma take_all_hex (n : nat) (s : string) :
  all_hex s = true -> all_hex (take n s) = true.
Proof.
  revert s; induction n as [|n IH]; intros s H; [reflexivity|].
  destruct s as [|c s]; [reflexivity|]. cbn [take all_hex] in *.
  apply andb_true_iff in H as [Hc Hs]. now rewrite Hc, IH.
Qed.

(** The identifier of an issue is eight hexadecimal digits. *)
Lemma next_issue_id_shape (env : Env) (w : World) :
  String.length (next_issue_id env w) = 8 /\
  all_hex (next_issue_id env w) = true.
Proof.
  unfold next_issue_id, uuid4_hex_of. split.
  - apply take_length. rewrite hex_fixed_length. lia.
  - apply take_all_hex, hex_fixed_all_hex.
Qed.

(** A confirmation word mentions no keyword, so its table is the default. *)
Lemma affirmative_table (text : string) :
  is_affirmative text -> detect_table text = "order_header".
Proof.
  unfold is_affirmative, detect_table. cbv zeta.
  intros [H | [H | []]]; rewrite <- H; reflexivity.
Qed.

End IdentifierFacts.

(** C3.  The escalation records the issue, with status open and an
    identifier of eight characters, before the mail is attempted: the world
    from which the mail is sent holds the issue and has seen no SMTP
    conversation of this escalation.  Whatever the delivery does, the issue
    is in the mapping afterwards, and the escalation returns the identifier
    and the token with the result of the delivery, false included.  When an
    approved query returns no rows and the escalation reports a failed
    delivery, the issue is in the mapping after the turn, the last message of
    the transcript tells that the mail failed and gives the identifier, and
    the state is collect. *)
Theorem escalation_survives_mail_failure (env : Env) :
  (forall (user_question : string) (sql : option string)
          (table details : string) (w : World),
     let i := mkIssue user_question sql table details "open" in
     let issue_id := next_issue_id env w in
     let token := next_token env w in
     let w1 := issue_recorded env i w in
     let sent :=
       send_mail_to_upstream env (issue_subject table issue_id)
         (issue_body token user_question sql details) None w1 in
     let out := create_and_send_issue env user_question sql table details w in
     String.length issue_id = 8 /\ status i = "open" /\
     ISSUE_STORE w1 !! issue_id = Some i /\ events w1 = events w /\
     out = (match fst sent with
            | Ok ok => Ok (issue_id, token, ok)
            | Raise e => Raise e
            end, snd sent) /\
     ISSUE_STORE (snd out) !! issue_id = Some i /\
     (fst sent = Ok false -> fst out = Ok (issue_id, token, false))) /\
  (forall (req : Request) (w : World) (df : DataFrame),
     ordinary_turn req -> state_of w = confirm ->
     is_affirmative (text_of req) ->
     read_sql env (pending_sql (opened (session w))) = Ok df ->
     df_empty df = true ->
     let q := pending_sql (opened (session w)) in
     let text := text_of req in
     let w0 := logged (EvSQL q) (turn_start req w) in
     let issue_id := next_issue_id env w0 in
     let out :=
       create_and_send_issue env text q (detect_table text) "No rows returned"
         w0 in
     let w' := snd (index env req w) in
     ISSUE_STORE w' !! issue_id =
       Some (mkIssue text q (detect_table text) "No rows returned" "open") /\
     (fst out = Ok (issue_id, next_token env w0, false) ->
      last (transcript w') =
        Some (mkMessage assistant
                ("No data found, but failed to send email. Issue ID: " +:+
                 issue_id)) /\
      state (session w') = Some collect)).
Proof.
  split.
  - intros user_question sql table details w. cbv zeta.
    rewrite create_and_send_issue_eq. cbv zeta. cbn [fst snd].
    destruct (send_mail_frame env
                (issue_subject table (next_issue_id env w))
                (issue_body (next_token env w) user_question sql details)
                None
                (issue_recorded env
                   (mkIssue user_question sql table details "open") w))
      as [_ [Hi _]].
    split; [apply next_issue_id_shape|]. split; [reflexivity|].
    split; [apply lookup_insert_eq|]. split; [reflexivity|].
    split; [reflexivity|]. split.
    + rewrite Hi. apply lookup_insert_eq.
    + intros ->. reflexivity.
  - intros req w df Hord Hst A R D. cbv zeta.
    set (q := pending_sql (opened (session w))).
    set (w0 := logged (EvSQL q) (turn_start req w)).
    destruct (create_and_send_issue_frame env (text_of req) q
                (detect_table (text_of req)) "No rows returned" w0)
      as [_ Hstore].
    rewrite (index_ordinary env req w Hord). cbv zeta. rewrite Hst.
    rewrite (process_turn_escalation env (text_of req) (turn_start req w)
               df A R D).
    cbv zeta.
    change (create_and_send_issue env (text_of req)
              (pending_sql (session (turn_start req w)))
              (detect_table (text_of req)) "No rows returned"
              (logged (EvSQL (pending_sql (session (turn_start req w))))
                      (turn_start req w)))
      with (create_and_send_issue env (text_of req) q
              (detect_table (text_of req)) "No rows returned" w0) in *.
    destruct (create_and_send_issue env (text_of req) q _ _ w0)
      as [[[[issue_id token] ok]|e] w2]; cbn [fst snd] in *.
    + split.
      * fields. rewrite Hstore. apply lookup_insert_eq.
      * intros H. injection H as -> -> ->. cbn [escalation_message]. fields.
        split; [apply last_snoc | reflexivity].
    + split; [|discriminate].
      fields. rewrite Hstore. apply lookup_insert_eq.
Qed.

(** ** The statements at the example sessions *)

Section ExampleFacts.

Lemma run_reachable (env : Env) (calls : list Call) : forall w,
  reachable w -> reachable (run env calls w).
Proof.
  induction calls as [|c calls IH]; intros w H; [exact H|].
  apply IH. now constructor.
Qed.

(** The tests of [index] that make a request an ordinary turn. *)
Lemma ordinary_turn_check (req : Request) :
  method req = POST ->
  in_set (lower (text_of req)) CLOSE_PHRASES = false ->
  String.eqb (default "message" (form_action req)) "reset" = false ->
  String.eqb (text_of req) "" = false ->
  ordinary_turn req.
Proof.
  intros Hm Hc Hr Ht. repeat split; auto.
  - now apply in_set_false.
  - intros H. apply reset_action_spec in H. congruence.
  - now apply String.eqb_neq.
Qed.

Lemma say_ordinary (message : string) :
  in_set (lower (strip message)) CLOSE_PHRASES = false ->
  String.eqb (strip message) "" = false ->
  ordinary_turn (say message).
Proof. intros Hc Ht. now apply ordinary_turn_check. Qed.


Lemma awaiting_with_files_reachable : reachable awaiting_with_files.
Proof. apply run_reachable. constructor. Qed.

End ExampleFacts.



(** C3, at an approved stock query without rows and a bot without mail
    settings: the issue is recorded and the user is told that the mail
    failed. *)
Lemma escalation_survives_mail_failure_witness :
  let env := bot (Ok no_rows) in
  let w' := snd (index env (say "yes") awaiting) in
  ISSUE_STORE w' !! "9f86d081" =
    Some (mkIssue "yes" (Some STOCK_QUERY) "order_header" "No rows returned"
                  "open") /\
  last (transcript w') =
    Some (mkMessage assistant
            "No data found, but failed to send email. Issue ID: 9f86d081") /\
  state (session w') = Some collect.
Proof.
  cbv zeta.
  assert (ordinary_turn (say "yes")) as Hord
    by (apply say_ordinary; reflexivity).
  assert (is_affirmative (text_of (say "yes"))) as A
    by (apply in_set_spec; reflexivity).
  destruct (escalation_survives_mail_failure (bot (Ok no_rows)))
    as [Hfun Hturn].
  destruct (Hturn (say "yes") awaiting no_rows Hord eq_refl A eq_refl eq_refl)
    as [Hstore Hfail].
  split; [exact Hstore|]. apply Hfail.
  apply (Hfun "yes" (Some STOCK_QUERY) "order_header" "No rows returned").
  reflexivity.
Defined.

(** C4, evaluated: the issue of an approved stock query without rows records
    the confirmation word as its question and the default table, not the
    question that produced the query and its table. *)
Lemma zero_rows_issue_records_confirmation :
  let w := run (bot (Ok no_rows))
             [CallIndex (say STOCK_QUESTION); CallIndex (say "yes")]
             (fresh_world ∅) in
  ISSUE_STORE w !! "9f86d081" =
    Some (mkIssue "yes" (Some STOCK_QUERY) "order_header" "No rows returned"
                  "open") /\
  detect_table STOCK_QUESTION = "sku JOIN inventory" /\
  In (mkMessage user STOCK_QUESTION) (transcript w) /\
  state (session w) = Some collect.
Proof.
  cbv zeta. split; [reflexivity|]. split; [reflexivity|].
  split; [|reflexivity]. right. left. reflexivity.
Qed.

(** C5, at the session that awaits a confirmation. *)
Lemma close_phrase_resets_witness :
  session (snd (index (bot (Ok no_rows)) (say " Close Chat ") awaiting)) =
  mkSession (Some [mkMessage assistant GREETING]) (Some collect) None None.
Proof.
  apply (close_phrase_resets (bot (Ok no_rows)) (say " Close Chat ") awaiting).
  - reflexivity.
  - apply in_set_spec. reflexivity.
Defined.

(** C6, at a fresh session whose language model is out of reach. *)
Lemma turn_failures_are_caught_witness :
  let w' := snd (index bot_offline (say STOCK_QUESTION) (fresh_world ∅)) in
  transcript w' =
    [mkMessage assistant GREETING; mkMessage user STOCK_QUESTION;
     mkMessage assistant (ERROR_PREFIX +:+ "Connection error.")] /\
  state (session w') = Some collect.
Proof.
  cbv zeta.
  assert (ordinary_turn (say STOCK_QUESTION)) as Hord
    by (apply say_ordinary; reflexivity).
  destruct (turn_failures_are_caught bot_offline (say STOCK_QUESTION)
              (fresh_world ∅) (mkExn Exception "Connection error."))
    as [_ H].
  destruct (H Hord) as [_ [Ht [Hs _]]]; [left; split; reflexivity|].
  split; [exact Ht | exact Hs].
Defined.





(** C10, at a session that has files of an earlier result and awaits a
    confirmation: an approved query without rows leaves the files, and both
    download links answer as before. *)
Lemma escalation_keeps_latest_files_witness :
  let w := awaiting_with_files in
  let w' := snd (handle (bot (Ok no_rows)) (CallIndex (say "yes")) w) in
  latest_files (session w) <> None /\
  latest_files (session w') = latest_files (session w) /\
  served "csv" w' = served "csv" w /\
  served "excel" w' = served "excel" w /\
  served "csv" w' =
    Ok (SendFile (OUT +:+ "/results_9f86d081884c4d659a2feaa0c55ad015.csv")).
Proof.
  cbv zeta.
  assert (ordinary_turn (say "yes")) as Hord
    by (apply say_ordinary; reflexivity).
  assert (is_affirmative (text_of (say "yes"))) as A
    by (apply in_set_spec; reflexivity).
  destruct (escalation_keeps_latest_files (bot (Ok no_rows))
              (CallIndex (say "yes")) awaiting_with_files) as [H _].
  destruct (H (say "yes") no_rows eq_refl Hord eq_refl A eq_refl eq_refl)
    as [Hfiles Hserved].
  split; [discriminate|]. split; [exact Hfiles|].
  split; [apply Hserved|]. split; [apply Hserved|].
  rewrite Hserved. reflexivity.
Defined.

(** * Further properties *)

Import Coverage MoreExamples.

(** ** Events of the collaborating steps *)

Section EventFacts.
Variable env : Env.

Lemma executed_app (a b : list Event) :
  executed (a ++ b) = (executed a ++ executed b)%list.
Proof.
  induction a as [|ev a IH]; [reflexivity|].
  destruct ev; cbn [executed app]; rewrite IH; reflexivity.
Qed.

Lemma executed_smtp (made : list (bool * string * Z)) :
  executed (map smtp_event made) = [].
Proof. induction made as [|[[s h] p] made IH]; [reflexivity | exact IH]. Qed.

(** The attempt loop appends the conversations of a prefix of the attempt
    list, and stops at the first that succeeds or raises past the loop. *)
Lemma try_attempts_events debug msg attempts : forall w,
  exists made rest,
    attempts = (made ++ rest)%list /\
    events (snd (try_attempts env debug msg attempts w)) =
      (events w ++ map smtp_event made)%list /\
    (fst (try_attempts env debug msg attempts w) = Ok false -> rest = []).
Proof.
  induction attempts as [|[[use_ssl h] p] attempts IH]; intros w.
  - exists [], []. cbn [try_attempts]. unfold ret. cbn [fst snd map].
    rewrite !app_nil_r. auto.
  - rewrite try_attempts_cons. cbv zeta.
    destruct (smtp_session env use_ssl h p debug msg) as [u|e].
    + exists [(use_ssl, h, p)], attempts. cbn [fst snd].
      rewrite events_logged. repeat split; auto. discriminate.
    + destruct (isinstance e MAIL_CAUGHT).
      * destruct (IH (logged (EvSMTP use_ssl h p) w))
          as [made [rest [-> [Hev Hf]]]].
        exists ((use_ssl, h, p) :: made), rest. rewrite Hev, events_logged.
        rewrite <- app_assoc. repeat split; auto.
      * exists [(use_ssl, h, p)], attempts. cbn [fst snd].
        rewrite events_logged. repeat split; auto. discriminate.
Qed.

(** The attempt list that [send_mail_to_upstream] builds. *)
Lemma send_mail_cases (subject body : string) (to : option string) (w : World) :
  let cfg := config env in
  let host := or_else (SMTP_HOST cfg) "smtp.gmail.com" in
  (~ credentials_present cfg /\
   send_mail_to_upstream env subject body to w = (Ok false, w)) \/
  (credentials_present cfg /\ pinned cfg /\
   truthy (env_SMTP_PORT cfg) = true /\
   py_int (or_default (env_SMTP_PORT cfg) "") = None /\
   exists e, exn_class e = ValueError /\
             send_mail_to_upstream env subject body to w = (Raise e, w)) \/
  (credentials_present cfg /\
   exists msg debug attempts,
     Subject msg = subject /\ body_text msg = body /\
     send_mail_to_upstream env subject body to w =
       try_attempts env debug msg attempts w /\
     ((unpinned cfg /\
       attempts = [(true, host, 465%Z); (false, host, 587%Z)]) \/
      (pinned cfg /\ exists port,
         attempts = [(pinned_ssl cfg, host, port)] /\
         (if truthy (env_SMTP_PORT cfg)
          then py_int (or_default (env_SMTP_PORT cfg) "") = Some port
          else port = if pinned_ssl cfg then 465%Z else 587%Z)))).
Proof.
  cbv zeta. unfold send_mail_to_upstream, credentials_present, pinned,
    unpinned, pinned_ssl.
  destruct (truthy (SMTP_USER (config env))) eqn:U;
    [|left; split; [intros [H _]; discriminate | reflexivity]].
  destruct (truthy (SMTP_PASS (config env))) eqn:P;
    [|left; split; [intros [_ [H _]]; discriminate | reflexivity]].
  destruct (truthy (UPSTREAM_EMAIL (config env))) eqn:R;
    [|left; split; [intros [_ [_ H]]; discriminate | reflexivity]].
  cbn [andb negb]. right.
  destruct (truthy (env_SMTP_PORT (config env))) eqn:Port; cbn [orb].
  - destruct (py_int (or_default (env_SMTP_PORT (config env)) "")) as [n|] eqn:I.
    + right. split; [auto|].
      eexists (mkEmail subject _ _ body), _, _.
      split; [reflexivity|]. split; [reflexivity|]. split; [reflexivity|].
      right. split; [now left|]. exists n. split; reflexivity.
    + left. repeat split; auto.
      eexists. split; [|reflexivity]. reflexivity.
  - right. split; [auto|].
    destruct (env_SMTP_USE_SSL (config env)) as [flag|] eqn:F.
    + rewrite bool_decide_true by discriminate.
      eexists (mkEmail subject _ _ body), _, _.
      split; [reflexivity|]. split; [reflexivity|]. split; [reflexivity|].
      right. split; [right; discriminate|]. eexists. split; reflexivity.
    + rewrite bool_decide_false by (intros H; now apply H).
      eexists (mkEmail subject _ _ body), _, _.
      split; [reflexivity|]. split; [reflexivity|]. split; [reflexivity|].
      left. auto.
Qed.

End EventFacts.


Section MailBounds.
Variable env : Env.

Lemma send_mail_events (subject body : string) (to : option string)
    (w : World) :
  let out := send_mail_to_upstream env subject body to w in
  exists made,
    events (snd out) = (events w ++ map smtp_event made)%list /\
    List.length made <= 2 /\
    (pinned (config env) -> List.length made <= 1) /\
    (~ credentials_present (config env) -> made = [] /\ fst out = Ok false).
Proof.
  cbv zeta.
  destruct (send_mail_cases env subject body to w)
    as [[Hn Heq] | [[Hc [Hp [_ [_ [e [_ Heq]]]]]]
                   | [Hc [msg [debug [attempts [_ [_ [Heq Hatt]]]]]]]]].
  - rewrite Heq. exists []. cbn [fst snd map List.length]. rewrite app_nil_r.
    repeat split; auto; lia.
  - rewrite Heq. exists []. cbn [fst snd map List.length]. rewrite app_nil_r.
    repeat split; auto; try lia; contradiction.
  - rewrite Heq.
    destruct (try_attempts_events env debug msg attempts w)
      as [made [rest [Hsplit [Hev _]]]].
    exists made. split; [exact Hev|].
    assert (List.length made <= List.length attempts) as Hlen
      by (rewrite Hsplit, length_app; lia).
    destruct Hatt as [[[Hport Hssl] ->] | [Hpin [port [-> _]]]];
      cbn [List.length] in Hlen.
    + repeat split; try lia; try contradiction.
      intros [Hp | Hp]; [congruence | contradiction].
    + repeat split; try lia; contradiction.
Qed.

End MailBounds.

(** X1.  In every configuration, mail delivery leaves the session, the issue
    mapping and the random draws alone and appends only SMTP conversations to
    the events: at most two, at most one when the environment pins the
    transport, and none, with result false, when a credential is missing. *)
Theorem mail_attempts_bounded (env : Env) (subject body : string)
    (to : option string) (w : World) :
  let out := send_mail_to_upstream env subject body to w in
  session (snd out) = session w /\ ISSUE_STORE (snd out) = ISSUE_STORE w /\
  entropy_used (snd out) = entropy_used w /\
  exists made,
    events (snd out) = (events w ++ map smtp_event made)%list /\
    List.length made <= 2 /\
    (pinned (config env) -> List.length made <= 1) /\
    (~ credentials_present (config env) -> made = [] /\ fst out = Ok false).
Proof.
  cbv zeta.
  destruct (send_mail_frame env subject body to w) as [Hs [Hi He]].
  split; [exact Hs|]. split; [exact Hi|]. split; [exact He|].
  apply send_mail_events.
Qed.


(** ** What a request executes and records *)

Section ExecutionFacts.
Variable env : Env.

Lemma create_and_send_issue_events (q : string) (sql : option string)
    (table details : string) (w : World) :
  exists extra,
    events (snd (create_and_send_issue env q sql table details w)) =
      (events w ++ extra)%list /\
    executed extra = [].
Proof.
  rewrite create_and_send_issue_eq. cbv zeta. cbn [snd].
  destruct (send_mail_events env
              (issue_subject table (next_issue_id env w))
              (issue_body (next_token env w) q sql details) None
              (issue_recorded env (mkIssue q sql table details "open") w))
    as [made [Hev _]].
  exists (map smtp_event made). split; [exact Hev | apply executed_smtp].
Qed.

(** The export as one step: one random draw names both files, the CSV file
    is written first, and the Excel file only if that succeeded. *)
Lemma save_df_to_files_eq (df : DataFrame) (w : World) :
  let unique := uuid4_hex_of (urandom env (entropy_used w)) in
  let csv_path := OUT_DIR (config env) +:+ "/results_" +:+ unique +:+ ".csv" in
  let xlsx_path := OUT_DIR (config env) +:+ "/results_" +:+ unique +:+ ".xlsx" in
  save_df_to_files env df w =
  match to_csv env csv_path df with
  | Raise e => (Raise e, logged (EvWrite csv_path) (drawn w))
  | Ok _ =>
      match to_excel env xlsx_path df with
      | Raise e =>
          (Raise e, logged (EvWrite xlsx_path)
                      (logged (EvWrite csv_path) (drawn w)))
      | Ok _ =>
          (Ok (files_of (config env) unique),
           logged (EvWrite xlsx_path) (logged (EvWrite csv_path) (drawn w)))
      end
  end.
Proof.
  cbv zeta. unfold save_df_to_files, bind, uuid4_hex, emit, lift, ret.
  destruct (to_csv env _ df); [|reflexivity].
  destruct (to_excel env _ df); reflexivity.
Qed.

Lemma save_df_to_files_events (df : DataFrame) (w : World) :
  exists extra,
    events (snd (save_df_to_files env df w)) = (events w ++ extra)%list /\
    executed extra = [].
Proof.
  rewrite save_df_to_files_eq. cbv zeta.
  destruct (to_csv env _ df); [destruct (to_excel env _ df)|]; cbn [snd].
  - eexists [_; _]. rewrite events_logged2. split; reflexivity.
  - eexists [_; _]. rewrite events_logged2. split; reflexivity.
  - eexists [_]. rewrite events_logged. split; reflexivity.
Qed.

(** The statements that the processing of a turn executes: the pending
    query, once, on an affirmative turn in state confirm, and nothing
    otherwise. *)
Lemma process_turn_events (st : State) (text : string) (w : World) :
  exists extra,
    events (snd (process_turn env st text w)) = (events w ++ extra)%list /\
    executed extra =
      match st with
      | collect => []
      | confirm => if in_set (lower text) AFFIRMATIVE
                   then [pending_sql (session w)] else []
      end.
Proof.
  pose proof (process_turn_outcome env st text w) as O.
  destruct (process_turn env st text w) as [r w']. cbn [fst snd] in *.
  destruct O as [e w1 Hst G | q w1 Hst G S | q w1 Hst G S | Hst A
                | e Hst A R | df issue_id token ok w2 Hst A R D C
                | df e w2 Hst A R D C | df e w2 Hst A R D F
                | df files e w2 Hst A R D F H
                | df files preview w2 Hst A R D F H];
    subst st;
    try (pose proof (proj1 (generate_sql_frame env text w)) as Hg;
         rewrite G in Hg; cbn [snd] in Hg; subst w1);
    try (apply in_set_spec in A as A'; rewrite A');
    try (apply in_set_false in A as A'; rewrite A').
  - eexists [_]. split; reflexivity.
  - eexists [_]. split; reflexivity.
  - eexists [_]. split; reflexivity.
  - exists []. cbn [on_session events]. rewrite app_nil_r. auto.
  - eexists [_]. split; reflexivity.
  - destruct (create_and_send_issue_events text (pending_sql (session w))
                (detect_table text) "No rows returned"
                (logged (EvSQL (pending_sql (session w))) w))
      as [extra [Hev Hex]].
    rewrite C in Hev. cbn [snd] in Hev.
    exists (EvSQL (pending_sql (session w)) :: extra).
    cbn [on_session events executed]. rewrite Hev, events_logged, Hex.
    rewrite <- app_assoc. auto.
  - destruct (create_and_send_issue_events text (pending_sql (session w))
                (detect_table text) "No rows returned"
                (logged (EvSQL (pending_sql (session w))) w))
      as [extra [Hev Hex]].
    rewrite C in Hev. cbn [snd] in Hev.
    exists (EvSQL (pending_sql (session w)) :: extra).
    cbn [executed]. rewrite Hev, events_logged, Hex.
    rewrite <- app_assoc. auto.
  - destruct (save_df_to_files_events df
                (logged (EvSQL (pending_sql (session w))) w))
      as [extra [Hev Hex]].
    rewrite F in Hev. cbn [snd] in Hev.
    exists (EvSQL (pending_sql (session w)) :: extra).
    cbn [executed]. rewrite Hev, events_logged, Hex.
    rewrite <- app_assoc. auto.
  - destruct (save_df_to_files_events df
                (logged (EvSQL (pending_sql (session w))) w))
      as [extra [Hev Hex]].
    rewrite F in Hev. cbn [snd] in Hev.
    exists (EvSQL (pending_sql (session w)) :: extra).
    cbn [on_session events executed]. rewrite Hev, events_logged, Hex.
    rewrite <- app_assoc. auto.
  - destruct (save_df_to_files_events df
                (logged (EvSQL (pending_sql (session w))) w))
      as [extra [Hev Hex]].
    rewrite F in Hev. cbn [snd] in Hev.
    exists (EvSQL (pending_sql (session w)) :: extra).
    cbn [on_session events executed]. rewrite Hev, events_logged, Hex.
    rewrite <- app_assoc. auto.
Qed.

(** The issue mapping after the processing of a turn: as before, or with
    the issue of the escalation at its identifier. *)
Lemma process_turn_store (st : State) (text : string) (w : World) :
  let w' := snd (process_turn env st text w) in
  ISSUE_STORE w' = ISSUE_STORE w \/
  st = confirm /\ is_affirmative text /\
  (exists df, read_sql env (pending_sql (session w)) = Ok df /\
              df_empty df = true) /\
  ISSUE_STORE w' =
    <[next_issue_id env (logged (EvSQL (pending_sql (session w))) w) :=
        mkIssue text (pending_sql (session w)) (detect_table text)
                "No rows returned" "open"]> (ISSUE_STORE w).
Proof.
  cbv zeta. pose proof (process_turn_outcome env st text w) as O.
  destruct (process_turn env st text w) as [r w']. cbn [fst snd] in *.
  destruct O; frames; subst; fields; eauto 10.
Qed.

End ExecutionFacts.

Section RequestFacts.
Variable env : Env.

Lemma download_file_events (filetype : string) (w : World) :
  exists extra,
    events (snd (download_file filetype w)) = (events w ++ extra)%list /\
    executed extra = [] /\
    ISSUE_STORE (snd (download_file filetype w)) = ISSUE_STORE w.
Proof.
  unfold download_file, bind, get_session, flash, emit, ret.
  destruct (latest_files (session w)) as [files|];
    [destruct (bool_decide (files = ∅)); [|destruct (files !! filetype)]|];
    cbn [snd];
    first [ exists []; rewrite app_nil_r; now auto
          | eexists [_]; rewrite events_logged; now auto ].
Qed.

Lemma index_other_events (req : Request) (w : World) :
  ~ ordinary_turn req ->
  exists extra,
    events (snd (index env req w)) = (events w ++ extra)%list /\
    executed extra = [].
Proof.
  intros Hn. rewrite index_unfold.
  destruct (method req) eqn:Hm; [exists []; cbn [snd on_session events];
                                   rewrite app_nil_r; now auto|].
  destruct (in_set _ CLOSE_PHRASES) eqn:Hc;
    [exists []; cbn [snd on_session events]; rewrite app_nil_r; now auto|].
  destruct (String.eqb (default "message" (form_action req)) "reset") eqn:R;
    [exists []; cbn [snd on_session events]; rewrite app_nil_r; now auto|].
  destruct (String.eqb (text_of req) "") eqn:T.
  - eexists [_]. cbn [snd]. rewrite events_logged. split; reflexivity.
  - exfalso. apply Hn. now apply ordinary_turn_check.
Qed.

Lemma approves_decided (c : Call) (w : World) :
  approves c w \/ ~ approves c w.
Proof.
  destruct c as [req | filetype];
    [|right; intros [req [H _]]; discriminate].
  destruct (ordinary_turn_decided req) as [Hord | Hn];
    [|right; intros [r [H [Ho _]]]; injection H as <-; contradiction].
  destruct (state_of w) eqn:Hst;
    [right; intros [r [H [_ [Hs _]]]]; congruence|].
  destruct (in_set (lower (text_of req)) AFFIRMATIVE) eqn:A.
  - left. exists req. apply in_set_spec in A. auto.
  - right. intros [r [H [_ [_ Ha]]]]. injection H as <-.
    apply in_set_spec in Ha. congruence.
Qed.

(** The statements that a request executes. *)
Lemma handle_events (c : Call) (w : World) :
  exists extra,
    events (snd (handle env c w)) = (events w ++ extra)%list /\
    (approves c w -> executed extra = [pending_sql (opened (session w))]) /\
    (~ approves c w -> executed extra = []).
Proof.
  destruct c as [req | filetype]; cbn [handle].
  - destruct (ordinary_turn_decided req) as [Hord | Hn].
    + rewrite (index_ordinary env req w Hord). cbv zeta.
      destruct (process_turn_events env (state_of w) (text_of req)
                  (turn_start req w)) as [extra [Hev Hex]].
      exists extra. split.
      * destruct (fst (process_turn env _ _ _)); cbn [snd]; exact Hev.
      * split.
        -- intros [r [H [_ [Hst A]]]]. injection H as <-.
           apply in_set_spec in A. rewrite Hst, A in Hex. exact Hex.
        -- intros Hn. destruct (state_of w) eqn:Hst; [exact Hex|].
           destruct (in_set (lower (text_of req)) AFFIRMATIVE) eqn:A;
             [|exact Hex].
           exfalso. apply Hn. exists req. apply in_set_spec in A. auto.
    + destruct (index_other_events req w Hn) as [extra [Hev Hex]].
      exists extra. split; [exact Hev|]. split; [|auto].
      intros [r [H [Ho _]]]. injection H as <-. contradiction.
  - destruct (download_file_events filetype w) as [extra [Hev [Hex _]]].
    exists extra. split; [exact Hev|]. split; [|auto].
    intros [r [H _]]. discriminate.
Qed.

(** The issue mapping after a request. *)
Lemma handle_store (c : Call) (w : World) :
  let w' := snd (handle env c w) in
  ISSUE_STORE w' = ISSUE_STORE w \/
  approves c w /\
  (exists df, read_sql env (pending_sql (opened (session w))) = Ok df /\
              df_empty df = true) /\
  ISSUE_STORE w' =
    <[next_issue_id env (escalation_start c w) :=
        mkIssue (text_of_call c) (pending_sql (opened (session w)))
                (detect_table (text_of_call c)) "No rows returned" "open"]>
      (ISSUE_STORE w).
Proof.
  cbv zeta. destruct c as [req | filetype]; cbn [handle].
  - destruct (ordinary_turn_decided req) as [Hord | Hn].
    + rewrite (index_ordinary env req w Hord). cbv zeta.
      destruct (process_turn_store env (state_of w) (text_of req)
                  (turn_start req w)) as [Hsame | [Hst [A [Hdf Hnew]]]].
      * left. destruct (fst (process_turn env _ _ _)); cbn [snd]; exact Hsame.
      * right. split; [exists req; auto|]. split; [exact Hdf|].
        destruct (fst (process_turn env _ _ _)); cbn [snd]; exact Hnew.
    + left. now destruct (index_other env req w Hn) as [Hs _].
  - left. now destruct (download_file_events filetype w) as [_ [_ [_ Hs]]].
Qed.

End RequestFacts.

Section PlayFacts.

Lemma play_snoc (steps : list (Env * Call)) (env : Env) (c : Call)
    (w : World) :
  play (steps ++ [(env, c)]) w = snd (handle env c (play steps w)).
Proof. unfold play. now rewrite fold_left_app. Qed.

Lemma play_reachable (steps : list (Env * Call)) (store : gmap string Issue) :
  reachable (play steps (fresh_world store)).
Proof.
  induction steps as [|[env c] steps IH] using rev_ind; [constructor|].
  rewrite play_snoc. now constructor.
Qed.

Lemma approved_query_passed (c : Call) (w : World) :
  reachable w -> approves c w ->
  gate_passed (pending_sql (opened (session w))).
Proof.
  intros Hr [req [_ [_ [Hst _]]]].
  destruct (reachable_session_ok w Hr) as [_ Hinv].
  unfold state_of in Hst. pose proof (opened_confirm _ Hst) as Ho.
  rewrite Ho in Hst |- *.
  destruct (state (session w)) as [[]|] eqn:S; try discriminate.
  destruct (Hinv S) as [q [Hq [Hsafe _]]]. now exists q.
Qed.

End PlayFacts.

(** X3.  A request executes a statement only if it is an ordinary turn in
    state confirm with an affirmative text, and then it executes exactly one:
    the pending query of the session.  Every other request, whatever the
    collaborators do, executes nothing. *)
Theorem sql_runs_only_on_approval (env : Env) (c : Call) (w : World) :
  exists extra,
    events (snd (handle env c w)) = (events w ++ extra)%list /\
    (approves c w -> executed extra = [pending_sql (opened (session w))]) /\
    (~ approves c w -> executed extra = []).
Proof. apply handle_events. Qed.

(** X4.  In every sequence of requests to a fresh session, with the
    collaborators behaving in any way, every statement that reached the
    database is a query that the safety gate accepted. *)
Theorem executed_statements_passed_gate (steps : list (Env * Call))
    (store : gmap string Issue) :
  Forall gate_passed (executed (events (play steps (fresh_world store)))).
Proof.
  induction steps as [|[env c] steps IH] using rev_ind; [constructor|].
  rewrite play_snoc.
  destruct (handle_events env c (play steps (fresh_world store)))
    as [extra [Hev [Hyes Hno]]].
  rewrite Hev, executed_app. apply Forall_app. split; [exact IH|].
  destruct (approves_decided c (play steps (fresh_world store))) as [A | A].
  - rewrite (Hyes A). constructor; [|constructor].
    apply (approved_query_passed c); [apply play_reachable | exact A].
  - rewrite (Hno A). constructor.
Qed.

(** X5.  A request never removes an issue.  It leaves the issue mapping as
    it is unless it approves a query whose result is empty; then the mapping
    changes at one identifier only, the one minted by the escalation, where
    the new issue replaces whatever was recorded under that identifier. *)
Theorem issue_store_changes_only_by_escalation (env : Env) (c : Call)
    (w : World) :
  let w' := snd (handle env c w) in
  let issue_id := next_issue_id env (escalation_start c w) in
  (forall id, is_Some (ISSUE_STORE w !! id) -> is_Some (ISSUE_STORE w' !! id)) /\
  (forall id, id <> issue_id -> ISSUE_STORE w' !! id = ISSUE_STORE w !! id) /\
  (ISSUE_STORE w' = ISSUE_STORE w \/
   approves c w /\
   (exists df, read_sql env (pending_sql (opened (session w))) = Ok df /\
               df_empty df = true) /\
   ISSUE_STORE w' =
     <[issue_id :=
         mkIssue (text_of_call c) (pending_sql (opened (session w)))
                 (detect_table (text_of_call c)) "No rows returned" "open"]>
       (ISSUE_STORE w)).
Proof.
  cbv zeta. pose proof (handle_store env c w) as H. cbv zeta in H.
  split; [|split; [|exact H]].
  - intros id Hid. destruct H as [-> | [_ [_ ->]]]; [exact Hid|].
    rewrite lookup_insert. case_decide; [eauto | exact Hid].
  - intros id Hne. destruct H as [-> | [_ [_ ->]]]; [reflexivity|].
    now rewrite lookup_insert_ne.
Qed.

(** X6.  In every sequence of requests to a fresh session of a process
    whose issue mapping was empty, every recorded issue has status open and
    the details "No rows returned", is recorded under an identifier of eight
    hexadecimal digits, and carries a query that the safety gate accepted. *)
Theorem recorded_issues_are_open (steps : list (Env * Call)) (id : string)
    (i : Issue) :
  ISSUE_STORE (play steps (fresh_world ∅)) !! id = Some i ->
  status i = "open" /\ details i = "No rows returned" /\
  String.length id = 8 /\ all_hex id = true /\ gate_passed (sql i).
Proof.
  revert id i.
  induction steps as [|[env c] steps IH] using rev_ind; intros id i.
  - cbn. rewrite lookup_empty. discriminate.
  - rewrite play_snoc.
    destruct (handle_store env c (play steps (fresh_world ∅)))
      as [-> | [A [_ ->]]]; [apply IH|].
    rewrite lookup_insert. case_decide as Hid; [|apply IH].
    intros H. injection H as <-. subst id. cbn [status details sql].
    destruct (next_issue_id_shape env
                (escalation_start c (play steps (fresh_world ∅))))
      as [Hlen Hhex].
    repeat split; auto.
    apply (approved_query_passed c); [apply play_reachable | exact A].
Qed.

(** ** Requests that are no ordinary turn *)

Section OpeningFacts.

Lemma opened_idempotent (s : Session) : opened (opened s) = opened s.
Proof. unfold opened at 1. destruct (chat (opened s)) eqn:C; [reflexivity|].
  exfalso. now apply (opened_chat s). Qed.

Lemma chat_transcript (w : World) :
  chat (session w) <> None -> chat (session w) = Some (transcript w).
Proof. unfold transcript. destruct (chat (session w)); [reflexivity | congruence]. Qed.

Lemma started_opened (s : Session) :
  s = mkSession None None None None \/ started s -> started (opened s).
Proof.
  intros [-> | H].
  - split; [now exists [] | discriminate].
  - destruct H as [[rest Hc] Hs]. unfold opened. rewrite Hc.
    split; [now exists rest | exact Hs].
Qed.

Lemma index_started (env : Env) (req : Request) (w : World) :
  session w = mkSession None None None None \/ started (session w) ->
  started (session (snd (index env req w))).
Proof.
  intros J. pose proof (started_opened _ J) as [[rest Hc] Hs].
  destruct (ordinary_turn_decided req) as [Hord | Hn].
  - rewrite (index_ordinary env req w Hord). cbv zeta.
    destruct (process_turn_transcript env (state_of w) (text_of req)
                (turn_start req w)) as [more [Ht [_ Hr]]].
    pose proof (process_turn_chat env (state_of w) (text_of req)
                  (turn_start req w)) as Hchat.
    pose proof (process_turn_state env (state_of w) (text_of req)
                  (turn_start req w)) as Hstate.
    assert (chat (session (snd (process_turn env (state_of w) (text_of req)
                                  (turn_start req w))))
            = Some (mkMessage assistant GREETING
                      :: rest ++ mkMessage user (text_of req) :: more)%list)
      as Hchat'.
    { rewrite chat_transcript by (apply Hchat; fields; discriminate).
      rewrite Ht. fields. rewrite Hc. cbn [from_option id].
      now rewrite <- app_assoc. }
    destruct (fst (process_turn env _ _ _)) as [resp|e]; cbn [snd].
    + split; [eexists; exact Hchat'|]. specialize (Hstate resp eq_refl).
      cbv zeta in Hstate. fields.
      destruct (state_of w);
        [destruct Hstate as [[-> _] | [-> _]] | destruct Hstate as [-> _]];
        try discriminate. exact Hs.
    + split; [|fields; discriminate]. fields. rewrite Hchat'.
      cbn [from_option id]. eexists. rewrite app_comm_cons. reflexivity.
  - destruct (index_other env req w Hn) as [_ [[-> _] | [-> Hne]]].
    + split; [now exists [] | discriminate].
    + destruct J as [J | J]; [rewrite J in Hne; now contradiction Hne | exact J].
Qed.

End OpeningFacts.

(** X7.  A GET request answers with the page for the transcript and the
    state of the session, after starting the session with the greeting if it
    had no transcript.  It calls no collaborator and touches no issue, and a
    second GET answers the same and changes nothing. *)
Theorem get_renders_transcript (env : Env) (req : Request) (w : World) :
  method req = GET ->
  let out := index env req w in
  fst out = Ok (RenderTemplate "index.html" (transcript (snd out))
                  (default collect (state (session (snd out))))) /\
  session (snd out) = opened (session w) /\
  events (snd out) = events w /\ ISSUE_STORE (snd out) = ISSUE_STORE w /\
  index env req (snd out) = out.
Proof.
  intros Hm. cbv zeta. rewrite !index_unfold, Hm. cbn [fst snd].
  unfold state_of, transcript. cbn [session on_session events ISSUE_STORE].
  repeat split. unfold on_session. cbn [session ISSUE_STORE events entropy_used].
  now rewrite opened_idempotent.
Qed.

(** X8.  A posted turn whose text is empty after trimming, and which is not
    the reset action, changes nothing in the session beyond starting it: the
    user is told to enter a message by a flash, the answer is a redirect, and
    no collaborator is called. *)
Theorem empty_message_changes_nothing (env : Env) (req : Request) (w : World) :
  method req = POST -> ~ is_reset_action req -> text_of req = "" ->
  let out := index env req w in
  fst out = Ok REDIRECT /\
  session (snd out) = opened (session w) /\
  events (snd out) =
    (events w ++ [EvFlash "Please enter a message." "warning"])%list /\
  ISSUE_STORE (snd out) = ISSUE_STORE w.
Proof.
  intros Hm Hr Ht. cbv zeta. rewrite index_unfold, Hm, Ht.
  change (in_set (lower "") CLOSE_PHRASES) with false. cbv iota.
  destruct (String.eqb (default "message" (form_action req)) "reset") eqn:R;
    [apply reset_action_spec in R; contradiction|].
  cbn [String.eqb fst snd]. repeat split.
Qed.

(** X9.  A posted request with the reset action resets the session whatever
    its text and whatever the state: the transcript is the greeting alone,
    the state is collect, no pending query and no file references remain;
    the text is not recorded and no collaborator is called. *)
Theorem reset_action_resets (env : Env) (req : Request) (w : World) :
  method req = POST -> is_reset_action req ->
  let out := index env req w in
  fst out = Ok REDIRECT /\
  session (snd out) =
    mkSession (Some [mkMessage assistant GREETING]) (Some collect) None None /\
  events (snd out) = events w /\ ISSUE_STORE (snd out) = ISSUE_STORE w.
Proof.
  intros Hm Hr. cbv zeta. rewrite index_unfold, Hm.
  apply reset_action_spec in Hr. rewrite Hr.
  destruct (in_set _ CLOSE_PHRASES); repeat split.
Qed.

(** X10.  In every sequence of requests to a fresh session, the session is
    either untouched or started: its transcript begins with the greeting and
    its state is set.  After any request to the index route it is started. *)
Theorem transcript_opens_with_greeting (steps : list (Env * Call))
    (store : gmap string Issue) :
  let w := play steps (fresh_world store) in
  (session w = mkSession None None None None \/ started (session w)) /\
  forall env req, started (session (snd (index env req w))).
Proof.
  cbv zeta.
  assert (session (play steps (fresh_world store))
            = mkSession None None None None \/
          started (session (play steps (fresh_world store)))) as J.
  { induction steps as [|[env c] steps IH] using rev_ind; [now left|].
    rewrite play_snoc. destruct c as [req | filetype]; cbn [handle].
    - right. now apply index_started.
    - now rewrite download_file_session. }
  split; [exact J|]. intros env req. now apply index_started.
Qed.

(** ** Turns in state collect and results with rows *)

Section ResultFacts.
Variable env : Env.


Lemma process_turn_rows (text : string) (w : World) (df : DataFrame) :
  is_affirmative text ->
  read_sql env (pending_sql (session w)) = Ok df -> df_empty df = false ->
  let saved := save_df_to_files env df
                 (logged (EvSQL (pending_sql (session w))) w) in
  process_turn env confirm text w =
  match fst saved with
  | Raise e => (Raise e, snd saved)
  | Ok files =>
      match to_html env (df_head 20 df) with
      | Raise e => (Raise e, on_session (with_latest_files files) (snd saved))
      | Ok preview =>
          (Ok REDIRECT,
           on_session
             (fun s => with_state collect
                (appended assistant NEXT_REQUEST_PROMPT
                   (appended assistant DOWNLOAD_LINKS
                      (appended assistant
                         ("Here are the results:<br>" +:+ preview)
                         (with_latest_files files s))))) (snd saved))
      end
  end.
Proof.
  intros A R D. cbv zeta.
  pose proof (process_turn_outcome env confirm text w) as O.
  destruct (process_turn env confirm text w) as [r w']. cbn [fst snd] in *.
  inversion O; subst; try discriminate; try contradiction; try congruence;
    match goal with Hr : read_sql _ _ = Ok ?d |- _ =>
      assert (d = df) as Hd by congruence; subst d end;
    match goal with F : save_df_to_files _ _ _ = _ |- _ => rewrite F end;
    cbn [fst snd]; try reflexivity;
    match goal with H : to_html _ _ = _ |- _ => rewrite H end; reflexivity.
Qed.


Lemma download_file_eq (filetype : string) (w : World) :
  download_file filetype w =
  match latest_files (session w) ≫= (fun files => files !! filetype) with
  | Some path => (Ok (SendFile path), w)
  | None => (Ok REDIRECT, logged (EvFlash "File not available." "warning") w)
  end.
Proof.
  unfold download_file, bind, get_session, flash, emit, ret.
  destruct (latest_files (session w)) as [files|]; cbn [mbind option_bind];
    [|reflexivity].
  destruct (bool_decide (files = ∅)) eqn:B.
  - apply bool_decide_eq_true in B. subst. rewrite lookup_empty. reflexivity.
  - destruct (files !! filetype); reflexivity.
Qed.

End ResultFacts.



(** X13.  When an approved query returns rows but an export raises, the
    file references of the session stay as they were, so the download route
    keeps answering as before the turn; the user gets the error message and
    the state is collect.  If the CSV export raises, the Excel export is not
    attempted. *)
Theorem failed_export_keeps_old_files (env : Env) (req : Request) (w : World)
    (df : DataFrame) (e : Exn) :
  let unique := uuid4_hex_of (urandom env (entropy_used w)) in
  let csv_path := OUT_DIR (config env) +:+ "/results_" +:+ unique +:+ ".csv" in
  let xlsx_path := OUT_DIR (config env) +:+ "/results_" +:+ unique +:+ ".xlsx" in
  let q := pending_sql (opened (session w)) in
  ordinary_turn req -> state_of w = confirm -> is_affirmative (text_of req) ->
  read_sql env q = Ok df -> df_empty df = false ->
  to_csv env csv_path df = Raise e \/
  (to_csv env csv_path df = Ok tt /\ to_excel env xlsx_path df = Raise e) ->
  let w' := snd (index env req w) in
  latest_files (session w') = latest_files (session w) /\
  (forall filetype, served filetype w' = served filetype w) /\
  state (session w') = Some collect /\
  last (transcript w') =
    Some (mkMessage assistant (ERROR_PREFIX +:+ exn_str e)) /\
  (to_csv env csv_path df = Raise e ->
   events w' = (events w ++ [EvSQL q; EvWrite csv_path])%list).
Proof.
  cbv zeta. intros Hord Hst A R D Hfail.
  assert (opened (session w) = session w) as Ho
    by (apply opened_confirm; exact Hst).
  rewrite (index_ordinary env req w Hord). cbv zeta. rewrite Hst.
  rewrite (process_turn_rows env (text_of req) (turn_start req w) df A R D).
  cbv zeta. rewrite save_df_to_files_eq. cbv zeta.
  cbn [entropy_used logged turn_start on_session].
  assert (forall w0, latest_files (session w0) = latest_files (session w) ->
                     forall filetype, served filetype w0 = served filetype w)
    as Hserved by (intros w0 H filetype; now apply served_by_files).
  destruct Hfail as [Hcsv | [Hcsv Hxlsx]]; rewrite Hcsv; [|rewrite Hxlsx];
    cbn [fst snd]; unfold drawn; fields; rewrite ?Ho.
  - split; [reflexivity|].
    split; [apply Hserved; unfold drawn; fields; rewrite ?Ho; reflexivity|].
    split; [reflexivity|]. split; [apply last_snoc|].
    intros _. now rewrite <- !app_assoc.
  - split; [reflexivity|].
    split; [apply Hserved; unfold drawn; fields; rewrite ?Ho; reflexivity|].
    split; [reflexivity|]. split; [apply last_snoc|].
    intros H. discriminate.
Qed.

(** X14.  The download route never changes the session or the issue
    mapping.  It serves a file exactly when the session has file references
    and the file type is one of their keys; with no references, or another
    file type, it answers with a redirect and the flash "File not
    available.". *)
Theorem download_serves_recorded_files (filetype : string) (w : World) :
  let out := download_file filetype w in
  session (snd out) = session w /\ ISSUE_STORE (snd out) = ISSUE_STORE w /\
  match latest_files (session w) ≫= (fun files => files !! filetype) with
  | Some path => out = (Ok (SendFile path), w)
  | None =>
      fst out = Ok REDIRECT /\
      events (snd out) =
        (events w ++ [EvFlash "File not available." "warning"])%list
  end.
Proof.
  cbv zeta. rewrite download_file_eq.
  destruct (latest_files (session w) ≫= _); repeat split.
Qed.

(** ** Trimming, fences and letter case *)

Section StripFacts.
Variable p : ascii -> bool.

Lemma append_nonempty_r (a b : string) : b <> "" -> a +:+ b <> "".
Proof. destruct a; sapp; [auto | discriminate]. Qed.

Lemma rstrip_by_app_keep (a b : string) :
  rstrip_by p b <> "" -> rstrip_by p (a +:+ b) = a +:+ rstrip_by p b.
Proof.
  intros H. induction a as [|c a IH]; sapp; [reflexivity|].
  cbn [rstrip_by]. rewrite IH.
  destruct (a +:+ rstrip_by p b) eqn:E; [|reflexivity].
  exfalso. revert E. now apply append_nonempty_r.
Qed.

Lemma rstrip_by_app_nonempty (a b : string) :
  rstrip_by p b <> "" -> rstrip_by p (a +:+ b) <> "".
Proof.
  intros H. rewrite rstrip_by_app_keep by exact H. now apply append_nonempty_r.
Qed.

Lemma rstrip_by_app_drop (a b : string) :
  rstrip_by p b = "" -> rstrip_by p (a +:+ b) = rstrip_by p a.
Proof.
  intros H. induction a as [|c a IH]; sapp; [exact H|].
  cbn [rstrip_by]. now rewrite IH.
Qed.

Lemma lstrip_by_app_keep (a b : string) :
  lstrip_by p a <> "" -> lstrip_by p (a +:+ b) = lstrip_by p a +:+ b.
Proof.
  induction a as [|c a IH]; intros H; [now contradiction H|].
  sapp. cbn [lstrip_by] in *. destruct (p c); [now apply IH | reflexivity].
Qed.

Lemma lstrip_by_app_drop (a b : string) :
  lstrip_by p a = "" -> lstrip_by p (a +:+ b) = lstrip_by p b.
Proof.
  induction a as [|c a IH]; intros H; [reflexivity|].
  sapp. cbn [lstrip_by] in *. destruct (p c); [now apply IH | discriminate].
Qed.

End StripFacts.

(** Refutes that a closed text is empty, by evaluation. *)
Ltac nonempty := let H := fresh in intros H; vm_compute in H; discriminate H.

(** Shows that trimming the end of a concatenation leaves something, from
    its closed last part. *)
Ltac keeps_end := first [nonempty | apply rstrip_by_app_nonempty; keeps_end].

Section FenceFacts.

(** Whitespace around a text does not survive [strip]. *)
Lemma strip_between_newlines (q : string) : strip (nl +:+ q +:+ nl) = strip q.
Proof.
  unfold strip. rewrite (lstrip_by_app_drop isspace nl) by reflexivity.
  destruct (lstrip_by isspace q) eqn:E.
  - rewrite lstrip_by_app_drop by exact E. reflexivity.
  - rewrite lstrip_by_app_keep by (rewrite E; discriminate).
    rewrite E. now rewrite rstrip_by_app_drop by reflexivity.
Qed.

Lemma strip_fenced (q : string) : strip (fenced q) = fenced q.
Proof.
  unfold strip, fenced.
  rewrite (lstrip_by_app_keep isspace "```sql") by nonempty.
  change (lstrip_by isspace "```sql") with "```sql".
  rewrite !rstrip_by_app_keep; try reflexivity; keeps_end.
Qed.

Lemma strip_chars_fenced (q : string) :
  strip_chars "`" (fenced q) = "sql" +:+ nl +:+ q +:+ nl.
Proof.
  unfold strip_chars, fenced. fold backtick.
  rewrite (lstrip_by_app_keep backtick "```sql") by nonempty.
  change (lstrip_by backtick "```sql") with "sql".
  assert (rstrip_by backtick (nl +:+ "```") = nl) as Hr by reflexivity.
  rewrite (rstrip_by_app_keep backtick "sql") by keeps_end.
  rewrite (rstrip_by_app_keep backtick nl) by keeps_end.
  rewrite (rstrip_by_app_keep backtick q) by keeps_end.
  now rewrite Hr.
Qed.

Lemma strip_bare_fence (q : string) :
  strip ("```" +:+ nl +:+ q +:+ nl +:+ "```") =
    "```" +:+ nl +:+ q +:+ nl +:+ "```" /\
  strip_chars "`" ("```" +:+ nl +:+ q +:+ nl +:+ "```") = nl +:+ q +:+ nl.
Proof.
  assert (rstrip_by backtick (nl +:+ "```") = nl) as Hr by reflexivity.
  split.
  - unfold strip.
    rewrite (lstrip_by_app_keep isspace "```") by nonempty.
    change (lstrip_by isspace "```") with "```".
    rewrite !rstrip_by_app_keep; try reflexivity; keeps_end.
  - unfold strip_chars. fold backtick.
    rewrite (lstrip_by_app_drop backtick "```") by reflexivity.
    change (lstrip_by backtick (nl +:+ q +:+ nl +:+ "```"))
      with (nl +:+ q +:+ nl +:+ "```").
    rewrite (rstrip_by_app_keep backtick nl) by keeps_end.
    rewrite (rstrip_by_app_keep backtick q) by keeps_end.
    now rewrite Hr.
Qed.

End FenceFacts.

(** X15.  The candidate query is the reply of the language model, trimmed,
    when the trimmed reply does not start with a code fence.  A reply that
    wraps a query in a fence with the language tag sql yields the query,
    trimmed.  A fence without a language tag is removed but the line breaks
    inside it stay around the query.  An exception of the language model
    leaves the function. *)
Theorem fenced_reply_is_unwrapped (env : Env) (question : string) (w : World)
    (q : string) :
  let reply := llm_invoke env build_sql_prompt (user_prompt_of question) in
  let candidate := fst (generate_sql_for_question env question w) in
  (forall content,
     reply = Ok content -> startswith "```" (strip content) = false ->
     candidate = Ok (strip content)) /\
  (reply = Ok (fenced q) -> candidate = Ok (strip q)) /\
  (reply = Ok ("```" +:+ nl +:+ q +:+ nl +:+ "```") ->
   candidate = Ok (nl +:+ q +:+ nl)) /\
  (forall e, reply = Raise e -> candidate = Raise e).
Proof.
  cbv zeta. unfold generate_sql_for_question, bind, emit, lift, ret. cbv zeta.
  split; [|split; [|split]].
  - intros content -> H. cbn [fst]. now rewrite H.
  - intros ->. cbn [fst]. rewrite strip_fenced.
    change (startswith "```" (fenced q)) with true. cbv iota.
    rewrite strip_chars_fenced.
    change (startswith "sql" (lower ("sql" +:+ nl +:+ q +:+ nl))) with true.
    cbv iota.
    change (drop 3 ("sql" +:+ nl +:+ q +:+ nl)) with (nl +:+ q +:+ nl).
    now rewrite strip_between_newlines.
  - intros ->. cbn [fst]. destruct (strip_bare_fence q) as [-> ->].
    change (startswith "```" ("```" +:+ nl +:+ q +:+ nl +:+ "```")) with true.
    cbv iota.
    change (startswith "sql" (lower (nl +:+ q +:+ nl))) with false.
    reflexivity.
  - intros e ->. reflexivity.
Qed.

(** ** Letter case and the safety gate *)

Section CaseFacts.











End CaseFacts.


(** ** Keywords that contain another keyword *)

Section KeywordFacts.

Lemma contains_trans (a b c : string) :
  contains a b = true -> contains b c = true -> contains a c = true.
Proof.
  rewrite !contains_spec. intros [p1 [s1 ->]] [p2 [s2 ->]].
  exists (p2 +:+ p1), (s1 +:+ s2). now rewrite !append_assoc.
Qed.

Lemma any_in_refine (l l' : list string) (q : string) :
  forallb (fun k => existsb (fun k' => contains k' k) l') l = true ->
  any_in l q = true -> any_in l' q = true.
Proof.
  unfold any_in. rewrite forallb_forall, !existsb_exists.
  intros H [k [Hin Hc]]. specialize (H k Hin).
  apply existsb_exists in H as [k' [Hin' Hc']].
  exists k'. split; [exact Hin'|]. eapply contains_trans; eauto.
Qed.

Lemma any_in_same (l l' : list string) (q : string) :
  forallb (fun k => existsb (fun k' => contains k' k) l') l = true ->
  forallb (fun k => existsb (fun k' => contains k' k) l) l' = true ->
  any_in l q = any_in l' q.
Proof.
  intros H1 H2.
  destruct (any_in l q) eqn:A, (any_in l' q) eqn:B; try reflexivity.
  - apply (any_in_refine l l' q H1) in A. congruence.
  - apply (any_in_refine l' l q H2) in B. congruence.
Qed.

End KeywordFacts.

(** X17.  Six keywords never change the table label, because each contains
    another keyword of its own set and keywords are matched as substrings:
    orders, order_id, order header and order_type (they contain order),
    sku_id (sku) and site_code (site).  The heuristic over the keyword sets
    without them is the same function. *)
Theorem redundant_keywords (question : string) :
  detect_table_core question = detect_table question.
Proof.
  unfold detect_table_core, detect_table. cbv zeta.
  rewrite (any_in_same ORDER_CORE ORDER_KEYWORDS) by reflexivity.
  rewrite (any_in_same SKU_CORE SKU_KEYWORDS) by reflexivity.
  rewrite (any_in_same LOCATION_CORE LOCATION_KEYWORDS) by reflexivity.
  reflexivity.
Qed.

(** ** Identifiers of an escalation *)

Section TokenFacts.

Lemma next_token_shape (env : Env) (w : World) :
  String.length (next_token env w) = 12 /\ all_hex (next_token env w) = true.
Proof.
  unfold next_token, uuid4_hex_of. split.
  - apply take_length. rewrite hex_fixed_length. lia.
  - apply take_all_hex, hex_fixed_all_hex.
Qed.

End TokenFacts.

(** X18.  An escalation that returns has used exactly two random draws: the
    issue identifier is the first eight hexadecimal digits of the first, the
    conversation token the first twelve of the second.  It leaves the session
    as it is, and the issue is recorded under the returned identifier. *)
Theorem escalation_mints_identifiers (env : Env) (user_question : string)
    (sql : option string) (table details : string) (w : World)
    (issue_id token : string) (ok : bool) :
  let out := create_and_send_issue env user_question sql table details w in
  fst out = Ok (issue_id, token, ok) ->
  issue_id = take 8 (uuid4_hex_of (urandom env (entropy_used w))) /\
  token = take 12 (uuid4_hex_of (urandom env (S (entropy_used w)))) /\
  String.length issue_id = 8 /\ all_hex issue_id = true /\
  String.length token = 12 /\ all_hex token = true /\
  entropy_used (snd out) = S (S (entropy_used w)) /\
  session (snd out) = session w /\
  ISSUE_STORE (snd out) !! issue_id =
    Some (mkIssue user_question sql table details "open").
Proof.
  cbv zeta. rewrite create_and_send_issue_eq. cbv zeta. cbn [fst snd].
  destruct (send_mail_frame env
              (issue_subject table (next_issue_id env w))
              (issue_body (next_token env w) user_question sql details) None
              (issue_recorded env
                 (mkIssue user_question sql table details "open") w))
    as [Hs [Hi He]].
  destruct (fst (send_mail_to_upstream env _ _ None _)) as [ok'|e];
    [|discriminate].
  intros H. injection H as <- <- <-.
  destruct (next_issue_id_shape env w) as [L1 X1].
  destruct (next_token_shape env w) as [L2 X2].
  repeat split; auto.
  rewrite Hi. apply lookup_insert_eq.
Qed.

(** ** The further statements at the example sessions *)

(** X1, without credentials: no conversation, result false. *)
Lemma mail_attempts_bounded_witness :
  let out := send_mail_to_upstream (bot (Ok no_rows)) "subject" "body" None
               awaiting in
  fst out = Ok false /\ events (snd out) = events awaiting.
Proof.
  cbv zeta.
  destruct (mail_attempts_bounded (bot (Ok no_rows)) "subject" "body" None
              awaiting) as [_ [_ [_ [made [Hev [_ [_ H]]]]]]].
  destruct H as [Hmade Hout]; [intros [C _]; discriminate|].
  split; [exact Hout|]. rewrite Hev, Hmade. apply app_nil_r.
Defined.


(** X3, at the approval of the stock query: the pending query is executed,
    once. *)
Lemma sql_runs_only_on_approval_witness :
  executed (events (snd (handle (bot (Ok no_rows)) (CallIndex (say "yes"))
                           awaiting))) =
  [Some STOCK_QUERY].
Proof.
  destruct (sql_runs_only_on_approval (bot (Ok no_rows))
              (CallIndex (say "yes")) awaiting) as [extra [Hev [Hyes _]]].
  rewrite Hev, executed_app, Hyes; [reflexivity|].
  exists (say "yes"). split; [reflexivity|].
  split; [apply say_ordinary; reflexivity|].
  split; [reflexivity|]. apply in_set_spec. reflexivity.
Defined.

(** X5, at the approval of the stock query without rows: the mapping is
    unchanged at an identifier other than the one of the new issue. *)
Lemma issue_store_changes_only_by_escalation_witness :
  let w' := snd (handle (bot (Ok no_rows)) (CallIndex (say "yes")) awaiting) in
  ISSUE_STORE w' !! "00000000" = ISSUE_STORE awaiting !! "00000000".
Proof.
  cbv zeta.
  destruct (issue_store_changes_only_by_escalation (bot (Ok no_rows))
              (CallIndex (say "yes")) awaiting) as [_ [H _]].
  apply H. discriminate.
Defined.

(** X6, after the question and the approval. *)
Lemma recorded_issues_are_open_witness :
  exists i,
    ISSUE_STORE (play asked_and_approved (fresh_world ∅)) !! "9f86d081" = Some i /\
    status i = "open" /\ details i = "No rows returned" /\
    gate_passed (sql i).
Proof.
  eexists. split; [reflexivity|].
  destruct (recorded_issues_are_open asked_and_approved "9f86d081" _ eq_refl)
    as [H1 [H2 [_ [_ H3]]]].
  auto.
Defined.

(** X7, at the first visit. *)
Lemma get_renders_transcript_witness :
  fst (index (bot (Ok no_rows)) visit (fresh_world ∅)) =
  Ok (RenderTemplate "index.html" [mkMessage assistant GREETING] collect).
Proof.
  destruct (get_renders_transcript (bot (Ok no_rows)) visit (fresh_world ∅)
              eq_refl) as [H _].
  rewrite H. reflexivity.
Defined.

(** X8, at a message of blanks while a confirmation is awaited. *)
Lemma empty_message_changes_nothing_witness :
  session (snd (index (bot (Ok no_rows)) (say "   ") awaiting)) =
  session awaiting.
Proof.
  destruct (empty_message_changes_nothing (bot (Ok no_rows)) (say "   ")
              awaiting) as [_ [H _]].
  - reflexivity.
  - discriminate.
  - reflexivity.
  - rewrite H. reflexivity.
Defined.

(** X9, at the reset action sent with a question while a confirmation is
    awaited. *)
Lemma reset_action_resets_witness :
  let out := index (bot (Ok no_rows)) press_reset awaiting in
  transcript (snd out) = [mkMessage assistant GREETING] /\
  events (snd out) = events awaiting.
Proof.
  cbv zeta.
  destruct (reset_action_resets (bot (Ok no_rows)) press_reset awaiting
              eq_refl eq_refl) as [_ [Hs [He _]]].
  split; [|exact He]. unfold transcript. rewrite Hs. reflexivity.
Defined.



(** X13, at the approval of the stock query when the Excel export fails. *)
Lemma failed_export_keeps_old_files_witness :
  let w' := snd (index bot_disk_full (say "yes") awaiting_with_files) in
  latest_files (session w') = latest_files (session awaiting_with_files) /\
  last (transcript w') =
    Some (mkMessage assistant (ERROR_PREFIX +:+ "No space left on device")).
Proof.
  cbv zeta.
  destruct (failed_export_keeps_old_files bot_disk_full (say "yes")
              awaiting_with_files two_rows
              (mkExn OSError "No space left on device"))
    as [Hfiles [_ [_ [Hlast _]]]]; try reflexivity.
  - apply say_ordinary; reflexivity.
  - apply in_set_spec. reflexivity.
  - right. split; reflexivity.
  - split; [exact Hfiles | exact Hlast].
Defined.

(** X15, at a reply that fences the stock query. *)
Lemma fenced_reply_is_unwrapped_witness :
  fst (generate_sql_for_question bot_fencing STOCK_QUESTION (fresh_world ∅)) =
  Ok STOCK_QUERY.
Proof.
  destruct (fenced_reply_is_unwrapped bot_fencing STOCK_QUESTION
              (fresh_world ∅) STOCK_QUERY) as [_ [H _]].
  rewrite H; reflexivity.
Defined.

(** X18, at the escalation of the example. *)
Lemma escalation_mints_identifiers_witness :
  let out := create_and_send_issue (bot (Ok no_rows)) "yes" (Some STOCK_QUERY)
               "order_header" "No rows returned" awaiting in
  entropy_used (snd out) = 2 + entropy_used awaiting /\
  ISSUE_STORE (snd out) !! "9f86d081" =
    Some (mkIssue "yes" (Some STOCK_QUERY) "order_header" "No rows returned"
                  "open").
Proof.
  cbv zeta.
  destruct (escalation_mints_identifiers (bot (Ok no_rows)) "yes"
              (Some STOCK_QUERY) "order_header" "No rows returned" awaiting
              "9f86d081" "9f86d081884c" false eq_refl)
    as [_ [_ [_ [_ [_ [_ [He [_ Hs]]]]]]]].
  split; [exact He | exact Hs].
Defined.
